(** * SmartLibrary front end: the session manager and the API gateway

    A shallow embedding of [src/services/api.js] (the axios instance, its two
    interceptors and the [APIService] class) and of the [AuthProvider]
    component of the authentication context, followed by the properties the
    specification states about them.

    JavaScript values are a small inductive type, browser storage is a
    finite map from keys to strings, and effectful code is written in a
    state-and-exception monad over an explicit "world" (storage, the
    navigations performed, the requests sent). *)

From Stdlib Require Import ZArith Ascii String List.
From stdpp Require Import base option list strings pretty gmap.

Local Open Scope string_scope.
Local Open Scope list_scope.
Local Open Scope Z_scope.
Set Warnings "-register-all".

(** ** JavaScript values *)

(** The values that flow through the two components: JSON-like data plus
    [undefined].  Numbers are restricted to the integers: [VNum n] stands
    for the double of value [n] (an integer that a double holds exactly),
    which is all the code inspects (HTTP status codes, identifiers).  An
    object is the list of its own properties in insertion order. *)
Inductive value : Type :=
| VUndefined
| VNull
| VBool (b : bool)
| VNum (n : Z)
| VStr (s : string)
| VArr (items : list value)
| VObj (fields : list (string * value)).

(** [ToBoolean]: the test performed by [if (v)], [!!v] and [v || w]. *)
Definition truthy (v : value) : bool :=
  match v with
  | VUndefined | VNull => false
  | VBool b => b
  | VNum n => negb (n =? 0)
  | VStr s => match s with EmptyString => false | String _ _ => true end
  | VArr _ | VObj _ => true
  end.

(** [a || b] *)
Definition js_or (a b : value) : value := if truthy a then a else b.

(** *** [Number::toString] on integer-valued doubles

    The digits printed are the fewest that still denote the same double:
    up to [2^53] these are all the digits of the integer, above it the
    nearest integer with the fewest significant digits inside the rounding
    interval of the double.  From [10^21] on the exponent form is used. *)

(** Does the integer [c] round to the double [m] (with [m > 2^53])? *)
Definition denotes_same (m c : Z) : bool :=
  let e := Z.log2 m in
  let ulp := 2 ^ (e - 52) in
  let below := if m =? 2 ^ e then ulp else 2 * ulp in
  let above := 2 * ulp in
  let d := 4 * (c - m) in
  if Z.even (m / ulp) then (- below <=? d) && (d <=? above)
  else (- below <? d) && (d <? above).

Definition digits_of (m : Z) : Z := Z.of_nat (String.length (pretty m)).

Fixpoint shortest_from (fuel : nat) (k : Z) (m : Z) : Z :=
  match fuel with
  | O => m
  | S fuel' =>
      let p := 10 ^ (digits_of m - k) in
      let c1 := (m / p) * p in
      let c2 := c1 + p in
      let ok1 := denotes_same m c1 in
      let ok2 := denotes_same m c2 in
      if ok1 && ok2 then
        if m - c1 <? c2 - m then c1
        else if c2 - m <? m - c1 then c2
        else if Z.even (c1 / p) then c1 else c2
      else if ok1 then c1
      else if ok2 then c2
      else shortest_from fuel' (k + 1) m
  end.

Definition shortest (m : Z) : Z :=
  if m <=? 2 ^ 53 then m else shortest_from 17 1 m.

Fixpoint strip_zeros (reversed : string) : string :=
  match reversed with
  | String "0" rest => strip_zeros rest
  | _ => reversed
  end.

Definition significant (c : Z) : string :=
  String.rev (strip_zeros (String.rev (pretty c))).

Definition number_to_string (n : Z) : string :=
  let c := shortest (Z.abs n) in
  let text :=
    if c <? 10 ^ 21 then pretty c
    else
      match significant c with
      | EmptyString => ""
      | String d EmptyString => String d "" +:+ "e+" +:+ pretty (digits_of c - 1)
      | String d rest => String d ("." +:+ rest) +:+ "e+" +:+ pretty (digits_of c - 1)
      end in
  if n <? 0 then "-" +:+ text else text.

(** An object has an own property of this name. *)
Fixpoint has_key (key : string) (fields : list (string * value)) : bool :=
  match fields with
  | [] => false
  | (k, _) :: rest => String.eqb k key || has_key key rest
  end.

(** [ToString], as performed by template literals and by [setItem];
    [None] when it throws a [TypeError].  An object is converted by its
    [toString]: the one of the prototype gives [[object Object]], and an own
    property of that name, which JSON data cannot make callable, leaves no way
    to convert.  An array is joined, converting its elements. *)
Fixpoint to_string (v : value) : option string :=
  match v with
  | VUndefined => Some "undefined"
  | VNull => Some "null"
  | VBool b => Some (if b then "true" else "false")
  | VNum n => Some (number_to_string n)
  | VStr s => Some s
  | VArr items =>
      (fix join (l : list value) : option string :=
         match l with
         | [] => Some ""
         | x :: rest =>
             match match x with
                   | VUndefined | VNull => Some ""
                   | _ => to_string x
                   end with
             | None => None
             | Some first =>
                 match rest with
                 | [] => Some first
                 | _ :: _ =>
                     match join rest with
                     | None => None
                     | Some others => Some (first +:+ "," +:+ others)
                     end
                 end
             end
         end) items
  | VObj fields => if has_key "toString" fields then None else Some "[object Object]"
  end.

(** [v?.key] and destructuring read own properties.  The keys read by the
    code ([role], [username], [token]) are not defined on any prototype, so a
    non-object yields [undefined]. *)
Fixpoint lookup_field (key : string) (fields : list (string * value)) : value :=
  match fields with
  | [] => VUndefined
  | (k, v) :: rest => if String.eqb k key then v else lookup_field key rest
  end.

Definition prop (v : value) (key : string) : value :=
  match v with
  | VObj fields => lookup_field key fields
  | _ => VUndefined
  end.

(** [a === b] against a string literal. *)
Definition strict_eq_str (v : value) (lit : string) : bool :=
  match v with
  | VStr s => String.eqb s lit
  | _ => false
  end.

(** *** Hexadecimal digits, for escapes *)

Definition hex_digit (upper : bool) (n : N) : ascii :=
  if (n <? 10)%N then ascii_of_N (48 + n)
  else ascii_of_N ((if upper then 55 else 87) + n).

Definition hex_byte (upper : bool) (c : ascii) : string :=
  let n := N_of_ascii c in
  String (hex_digit upper (n / 16)) (String (hex_digit upper (n mod 16)) "").

(** *** [JSON.stringify] *)

Definition dquote : ascii := ascii_of_N 34.
Definition backslash : ascii := ascii_of_N 92.

Definition json_escape_char (c : ascii) : string :=
  let n := N_of_ascii c in
  if (n =? 34)%N then String backslash (String dquote "")
  else if (n =? 92)%N then String backslash (String backslash "")
  else if (n =? 8)%N then String backslash "b"
  else if (n =? 9)%N then String backslash "t"
  else if (n =? 10)%N then String backslash "n"
  else if (n =? 12)%N then String backslash "f"
  else if (n =? 13)%N then String backslash "r"
  else if (n <? 32)%N then String backslash ("u00" +:+ hex_byte false c)
  else String c "".

Fixpoint json_escape (s : string) : string :=
  match s with
  | EmptyString => ""
  | String c rest => json_escape_char c +:+ json_escape rest
  end.

Definition json_quote (s : string) : string :=
  String dquote (json_escape s +:+ String dquote "").

(** [JSON.stringify v]; [None] is the [undefined] it returns for
    [undefined].  Inside an array [undefined] prints as [null]; a property
    whose value is [undefined] is left out. *)
Fixpoint stringify (v : value) : option string :=
  match v with
  | VUndefined => None
  | VNull => Some "null"
  | VBool b => Some (if b then "true" else "false")
  | VNum n => Some (number_to_string n)
  | VStr s => Some (json_quote s)
  | VArr items =>
      Some ("[" +:+
            String.concat ","
              ((fix elems (l : list value) : list string :=
                  match l with
                  | [] => []
                  | x :: rest =>
                      match stringify x with
                      | Some sx => sx
                      | None => "null"
                      end :: elems rest
                  end) items) +:+ "]")
  | VObj fields =>
      Some ("{" +:+
            String.concat ","
              ((fix members (l : list (string * value)) : list string :=
                  match l with
                  | [] => []
                  | (k, x) :: rest =>
                      match stringify x with
                      | Some sx => (json_quote k +:+ ":" +:+ sx) :: members rest
                      | None => members rest
                      end
                  end) fields) +:+ "}")
  end.

Definition JSON_stringify (v : value) : value :=
  match stringify v with
  | Some s => VStr s
  | None => VUndefined
  end.

(** *** [encodeURIComponent], on the UTF-8 bytes of the string *)

Definition uri_unreserved (c : ascii) : bool :=
  let n := N_of_ascii c in
  ((65 <=? n) && (n <=? 90) || (97 <=? n) && (n <=? 122) || (48 <=? n) && (n <=? 57)
   || (n =? 45) || (n =? 95) || (n =? 46) || (n =? 33) || (n =? 126)
   || (n =? 42) || (n =? 39) || (n =? 40) || (n =? 41))%N.

Fixpoint encodeURIComponent (s : string) : string :=
  match s with
  | EmptyString => ""
  | String c rest =>
      (if uri_unreserved c then String c "" else "%" +:+ hex_byte true c)
      +:+ encodeURIComponent rest
  end.

(** A string literal between double quotes, as it appears in JSON text. *)
Definition quoted (s : string) : string := String dquote (s +:+ String dquote "").

(** ** The world outside the program *)

Record http_response : Type := {
  response_status : Z;
  response_data : value
}.

(** The error axios rejects with: [error.response] is set when the server
    answered (with a status axios treats as an error), and unset on a
    timeout or a network failure. *)
Record axios_error : Type := {
  error_response : option http_response;
  error_message : string
}.

Inductive exn : Type :=
| AxiosError (e : axios_error)
| JsError (name msg : string).

Record request : Type := {
  method : string;
  url : string;
  body : value;
  headers : gmap string string
}.

(** What the axios adapter settles a request with. *)
Inductive outcome : Type :=
| Resolved (r : http_response)
| Rejected (e : axios_error).

(** The backend answers a request, possibly depending on the requests it
    has received before. *)
Definition network : Type := list request -> request -> outcome.

Record world : Type := {
  localStorage : gmap string string;
  navigations : list string;      (* assignments to window.location.href *)
  sent : list request             (* requests handed to the adapter *)
}.

(** ** A state and exception monad *)

Inductive completion (A : Type) : Type :=
| Normal (a : A)
| Throw (e : exn).
Arguments Normal {A} a.
Arguments Throw {A} e.

Definition Js (S A : Type) : Type := S -> completion A * S.

Definition ret {S A} (a : A) : Js S A := fun s => (Normal a, s).

Definition throw {S A} (e : exn) : Js S A := fun s => (Throw e, s).

Definition bind {S A B} (m : Js S A) (k : A -> Js S B) : Js S B :=
  fun s =>
    match m s with
    | (Normal a, s') => k a s'
    | (Throw e, s') => (Throw e, s')
    end.

Notation "'let*' x ':=' m 'in' k" := (bind m (fun x => k))
  (at level 10, x name, m at level 100, k at level 200).
Notation "m ';;' k" := (bind m (fun _ => k))
  (at level 100, k at level 200, right associativity).

(** [try { body } catch (error) { handler }] *)
Definition try_catch {S A} (body : Js S A) (handler : exn -> Js S A) : Js S A :=
  fun s =>
    match body s with
    | (Normal a, s') => (Normal a, s')
    | (Throw e, s') => handler e s'
    end.

(** [try { body } finally { final }] *)
Definition try_finally {S A} (body : Js S A) (final : Js S unit) : Js S A :=
  fun s =>
    match body s with
    | (c, s') =>
        match final s' with
        | (Normal _, s'') => (c, s'')
        | (Throw e, s'') => (Throw e, s'')
        end
    end.

(** The conversion to a string of a template literal or of an argument
    that must be a string. *)
Definition unprintable : exn :=
  JsError "TypeError" "Cannot convert object to primitive value".

Definition text_of {S} (v : value) : Js S string :=
  match to_string v with
  | Some s => ret s
  | None => throw unprintable
  end.

(** ** Browser storage and navigation *)

Definition getItem (key : string) : Js world value :=
  fun w =>
    (Normal match localStorage w !! key with
            | Some s => VStr s
            | None => VNull
            end, w).

(** [setItem] stores the value converted to a string, and throws when the
    conversion does. *)
Definition setItem (key : string) (v : value) : Js world unit :=
  let* text := text_of v in
  fun w =>
    (Normal tt, {| localStorage := <[key := text]> (localStorage w);
                   navigations := navigations w;
                   sent := sent w |}).

Definition removeItem (key : string) : Js world unit :=
  fun w =>
    (Normal tt, {| localStorage := delete key (localStorage w);
                   navigations := navigations w;
                   sent := sent w |}).

(** [window.location.href = href] *)
Definition set_location_href (href : string) : Js world unit :=
  fun w =>
    (Normal tt, {| localStorage := localStorage w;
                   navigations := navigations w ++ [href];
                   sent := sent w |}).

(** ** The axios instance of [services/api.js] *)

Definition evict_session : Js world unit :=
  removeItem "token";;
  removeItem "userInfo";;
  set_location_href "/login".

(** [error.response?.status === 401] *)
Definition status_is_401 (error : axios_error) : bool :=
  match error_response error with
  | Some r => response_status r =? 401
  | None => false
  end.

(** [error.response?.status] and [error.response?.data] for any caught
    exception. *)
Definition exn_status (error : exn) : value :=
  match error with
  | AxiosError e =>
      match error_response e with
      | Some r => VNum (response_status r)
      | None => VUndefined
      end
  | JsError _ _ => VUndefined
  end.

Definition exn_data (error : exn) : value :=
  match error with
  | AxiosError e =>
      match error_response e with
      | Some r => response_data r
      | None => VUndefined
      end
  | JsError _ _ => VUndefined
  end.

Definition exn_message (error : exn) : value :=
  match error with
  | AxiosError e => VStr (error_message e)
  | JsError _ msg => VStr msg
  end.

Module api.

(** The headers of the instance: the [Accept] that axios gives every
    instance, and the [Content-Type] given to [axios.create]. *)
Definition default_headers : gmap string string :=
  <["Content-Type" := "application/json"]>
    {[ "Accept" := "application/json, text/plain, */*" ]}.

Definition set_authorization (v : string) (config : request) : request :=
  {| method := method config;
     url := url config;
     body := body config;
     headers := <["Authorization" := v]> (headers config) |}.

(** Request interceptor to add auth token. *)
Definition request_interceptor (config : request) : Js world request :=
  let* token := getItem "token" in
  if truthy token
  then
    let* text := text_of token in
    ret (set_authorization ("Bearer " +:+ text) config)
  else ret config.

(** Response interceptor for error handling (the rejection handler; the
    fulfilment handler is the identity). *)
Definition response_interceptor (error : axios_error) : Js world http_response :=
  (if status_is_401 error then evict_session else ret tt);;
  throw (AxiosError error).

Section Transport.
Variable net : network.

(** The adapter: the request leaves the program and the backend settles it. *)
Definition dispatch (config : request) : Js world outcome :=
  fun w =>
    (Normal (net (sent w) config),
     {| localStorage := localStorage w;
        navigations := navigations w;
        sent := sent w ++ [config] |}).

Definition request_ (verb : string) (endpoint : string) (data : value)
  : Js world http_response :=
  let* config :=
    request_interceptor
      {| method := verb; url := endpoint; body := data;
         headers := default_headers |} in
  let* settled := dispatch config in
  match settled with
  | Resolved response => ret response
  | Rejected error => response_interceptor error
  end.

Definition get (endpoint : string) : Js world http_response :=
  request_ "get" endpoint VUndefined.
Definition post (endpoint : string) (data : value) : Js world http_response :=
  request_ "post" endpoint data.
Definition put (endpoint : string) (data : value) : Js world http_response :=
  request_ "put" endpoint data.
Definition delete (endpoint : string) : Js world http_response :=
  request_ "delete" endpoint VUndefined.
End Transport.

End api.

(** ** The result shape [{ success, data?, error? }]

    [None] is a property the object literal does not have. *)
Record result : Type := {
  success : bool;
  data : option value;
  error : option value
}.

(** [{ success: true, data: response.data }] *)
Definition succeeded (response : http_response) : result :=
  {| success := true; data := Some (response_data response); error := None |}.

(** [{ success: false, error: error.response?.data || fallback }] *)
Definition failed (fallback : string) (error : exn) : result :=
  {| success := false;
     data := None;
     error := Some (js_or (exn_data error) (VStr fallback)) |}.

(** [{ success: false, error: error.response?.data || fallback, data: [] }] *)
Definition failed_list (fallback : string) (error : exn) : result :=
  {| success := false;
     data := Some (VArr []);
     error := Some (js_or (exn_data error) (VStr fallback)) |}.

(** [{ success: false,
       error: `${prefix}: ${error.response?.status} ${error.response?.data || error.message}`,
       data: [] }]: the template literal converts the status and the payload
    to strings, and throws when a conversion does. *)
Definition failed_admin_list {S} (prefix : string) (error : exn) : Js S result :=
  let* status := text_of (exn_status error) in
  let* detail := text_of (js_or (exn_data error) (exn_message error)) in
  ret {| success := false;
         data := Some (VArr []);
         error := Some (VStr (prefix +:+ ": " +:+ status +:+ " " +:+ detail)) |}.

(** [try { const response = await call; return { success: true, data: response.data }; }
     catch (error) { return handler(error); }], the body of all the
    endpoint methods. *)
Definition guarded (call : Js world http_response) (handler : exn -> result)
  : Js world result :=
  try_catch (let* response := call in ret (succeeded response))
            (fun error => ret (handler error)).

(** The same, for the admin list methods, whose [catch] block builds a
    message and can throw itself. *)
Definition guarded_admin_list (call : Js world http_response) (prefix : string)
  : Js world result :=
  try_catch (let* response := call in ret (succeeded response))
            (fun error => failed_admin_list prefix error).

(** ** The [APIService] class *)

Module APIService.
Section Methods.
Variable net : network.


(* Auth endpoints *)
Definition login (credentials : value) : Js world result :=
  guarded (api.post net "/api/auth/login" credentials) (failed "Login failed").

Definition register (userData : value) : Js world result :=
  guarded (api.post net "/api/auth/register" userData) (failed "Registration failed").

(* User endpoints *)
Definition getAvailableBooks : Js world result :=
  guarded (api.get net "/api/user/books/available") (failed_list "Failed to fetch books").

Definition searchBooks (query : string) : Js world result :=
  guarded (api.get net ("/api/user/books/search?query=" +:+ encodeURIComponent query))
          (failed_list "Search failed").

Definition getBookById (id : value) : Js world result :=
  guarded (let* id := text_of id in
           api.get net ("/api/user/books/" +:+ id))
          (failed "Failed to fetch book details").

Definition bookBook (bookingData : value) : Js world result :=
  guarded (api.post net "/api/user/books/book" bookingData)
          (failed "Failed to book the book").

Definition getUserBookings : Js world result :=
  guarded (api.get net "/api/user/bookings") (failed_list "Failed to fetch bookings").

Definition getActiveBookings : Js world result :=
  guarded (api.get net "/api/user/bookings/active")
          (failed_list "Failed to fetch active bookings").

Definition returnBook (bookingId : value) : Js world result :=
  guarded (let* bookingId := text_of bookingId in
           api.put net ("/api/user/bookings/" +:+ bookingId +:+ "/return") VUndefined)
          (failed "Failed to return book").

(** [language = 'en'] is a default parameter: it applies to [undefined]. *)
Definition sendChatMessage (message language : value) : Js world result :=
  let language := match language with VUndefined => VStr "en" | _ => language end in
  guarded (api.post net "/api/user/chat"
             (VObj [("message", message); ("language", language)]))
          (failed "Failed to send message").

(** Generic POST method for direct API calls: no [try], the axios
    response itself is returned. *)
Definition post (endpoint : string) (data : value) : Js world http_response :=
  let* response := api.post net endpoint data in
  ret response.

(** Generic GET method for direct API calls. *)
Definition get (endpoint : string) : Js world http_response :=
  let* response := api.get net endpoint in
  ret response.

(* Admin endpoints *)
Definition getAllBooks : Js world result :=
  guarded_admin_list (api.get net "/api/admin/books") "Failed to fetch all books".

Definition createBook (bookData : value) : Js world result :=
  guarded (api.post net "/api/admin/books" bookData) (failed "Failed to create book").

Definition updateBook (id bookData : value) : Js world result :=
  guarded (let* id := text_of id in
           api.put net ("/api/admin/books/" +:+ id) bookData)
          (failed "Failed to update book").

Definition deleteBook (id : value) : Js world result :=
  guarded (let* id := text_of id in
           api.delete net ("/api/admin/books/" +:+ id))
          (failed "Failed to delete book").

Definition updateBookQuantity (id quantity : value) : Js world result :=
  guarded (let* id := text_of id in
           let* quantity := text_of quantity in
           api.put net ("/api/admin/books/" +:+ id +:+ "/quantity?quantity=" +:+ quantity)
             VUndefined)
          (failed "Failed to update book quantity").

(** The [console] calls of [getAllUsers] have no effect on the world. *)
Definition getAllUsers : Js world result :=
  guarded_admin_list (api.get net "/api/admin/users") "Failed to fetch users".

Definition getUserById (id : value) : Js world result :=
  guarded (let* id := text_of id in
           api.get net ("/api/admin/users/" +:+ id))
          (failed "Failed to fetch user").

Definition updateUser (id userData : value) : Js world result :=
  guarded (let* id := text_of id in
           api.put net ("/api/admin/users/" +:+ id) userData)
          (failed "Failed to update user").

Definition deleteUser (id : value) : Js world result :=
  guarded (let* id := text_of id in
           api.delete net ("/api/admin/users/" +:+ id))
          (failed "Failed to delete user").

Definition getAllBookings : Js world result :=
  guarded_admin_list (api.get net "/api/admin/bookings") "Failed to fetch bookings".

Definition adminReturnBook (bookingId : value) : Js world result :=
  guarded (let* bookingId := text_of bookingId in
           api.put net ("/api/admin/bookings/" +:+ bookingId +:+ "/return") VUndefined)
          (failed "Failed to return book").
End Methods.
End APIService.

(** *** Every way of calling the gateway *)

Inductive operation : Type :=
| Login (credentials : value)
| Register (userData : value)
| GetAvailableBooks
| SearchBooks (query : string)
| GetBookById (id : value)
| BookBook (bookingData : value)
| GetUserBookings
| GetActiveBookings
| ReturnBook (bookingId : value)
| SendChatMessage (message language : value)
| Post (endpoint : string) (data : value)
| Get (endpoint : string)
| GetAllBooks
| CreateBook (bookData : value)
| UpdateBook (id bookData : value)
| DeleteBook (id : value)
| UpdateBookQuantity (id quantity : value)
| GetAllUsers
| GetUserById (id : value)
| UpdateUser (id userData : value)
| DeleteUser (id : value)
| GetAllBookings
| AdminReturnBook (bookingId : value).

(** What a method of [APIService] hands back: the uniform result, or (for
    the two generic methods) the raw axios response. *)
Inductive returned : Type :=
| Shaped (r : result)
| RawResponse (response : http_response).

Definition shaped {S} (m : Js S result) : Js S returned :=
  let* r := m in ret (Shaped r).
Definition raw {S} (m : Js S http_response) : Js S returned :=
  let* r := m in ret (RawResponse r).

Definition invoke (net : network) (op : operation) : Js world returned :=
  match op with
  | Login credentials => shaped (APIService.login net credentials)
  | Register userData => shaped (APIService.register net userData)
  | GetAvailableBooks => shaped (APIService.getAvailableBooks net)
  | SearchBooks query => shaped (APIService.searchBooks net query)
  | GetBookById id => shaped (APIService.getBookById net id)
  | BookBook bookingData => shaped (APIService.bookBook net bookingData)
  | GetUserBookings => shaped (APIService.getUserBookings net)
  | GetActiveBookings => shaped (APIService.getActiveBookings net)
  | ReturnBook bookingId => shaped (APIService.returnBook net bookingId)
  | SendChatMessage message language => shaped (APIService.sendChatMessage net message language)
  | Post endpoint data => raw (APIService.post net endpoint data)
  | Get endpoint => raw (APIService.get net endpoint)
  | GetAllBooks => shaped (APIService.getAllBooks net)
  | CreateBook bookData => shaped (APIService.createBook net bookData)
  | UpdateBook id bookData => shaped (APIService.updateBook net id bookData)
  | DeleteBook id => shaped (APIService.deleteBook net id)
  | UpdateBookQuantity id quantity => shaped (APIService.updateBookQuantity net id quantity)
  | GetAllUsers => shaped (APIService.getAllUsers net)
  | GetUserById id => shaped (APIService.getUserById net id)
  | UpdateUser id userData => shaped (APIService.updateUser net id userData)
  | DeleteUser id => shaped (APIService.deleteUser net id)
  | GetAllBookings => shaped (APIService.getAllBookings net)
  | AdminReturnBook bookingId => shaped (APIService.adminReturnBook net bookingId)
  end.

(** The two generic methods, the list-returning methods, and among these
    the admin ones. *)
Definition is_generic (op : operation) : bool :=
  match op with
  | Post _ _ | Get _ => true
  | _ => false
  end.

Definition is_admin_list (op : operation) : bool :=
  match op with
  | GetAllBooks | GetAllUsers | GetAllBookings => true
  | _ => false
  end.

Definition is_list (op : operation) : bool :=
  match op with
  | GetAvailableBooks | SearchBooks _ | GetUserBookings | GetActiveBookings
  | GetAllBooks | GetAllUsers | GetAllBookings => true
  | _ => false
  end.

(** ** The [AuthProvider] component *)

(** The three [useState] cells. *)
Record session : Type := {
  currentUser : value;
  token : value;
  loading : bool
}.

(** [v?.key] *)
Definition opt_prop (v : value) (key : string) : value :=
  match v with
  | VUndefined | VNull => VUndefined
  | _ => prop v key
  end.

(** Object destructuring [const { ... } = v] throws on [undefined] and
    [null]; so does a property access [v.key]. *)
Definition require_object_coercible {S} (v : value) : Js S value :=
  match v with
  | VUndefined | VNull =>
      throw (JsError "TypeError" "Cannot read properties of undefined or null")
  | _ => ret v
  end.

Definition field (o : option value) : value :=
  match o with
  | Some v => v
  | None => VUndefined
  end.

Module AuthProvider.

Definition state : Type := session * world.

(** Code that only touches the world, run from the component. *)
Definition outside {A} (m : Js world A) : Js state A :=
  fun st =>
    match m (snd st) with
    | (c, w') => (c, (fst st, w'))
    end.

Definition setCurrentUser (v : value) : Js state unit :=
  fun st =>
    (Normal tt, ({| currentUser := v; token := token (fst st);
                    loading := loading (fst st) |}, snd st)).

Definition setToken (v : value) : Js state unit :=
  fun st =>
    (Normal tt, ({| currentUser := currentUser (fst st); token := v;
                    loading := loading (fst st) |}, snd st)).

Definition setLoading (b : bool) : Js state unit :=
  fun st =>
    (Normal tt, ({| currentUser := currentUser (fst st); token := token (fst st);
                    loading := b |}, snd st)).

Definition read {A} (f : session -> A) : Js state A :=
  fun st => (Normal (f (fst st)), st).

(** The initial values given to [useState]. *)
Definition mount (w : world) : state :=
  ({| currentUser := VNull;
      token := match localStorage w !! "token" with
               | Some s => VStr s
               | None => VNull
               end;
      loading := true |}, w).

Definition logout : Js state unit :=
  outside (removeItem "token");;
  outside (removeItem "userInfo");;
  setToken VNull;;
  setCurrentUser VNull.

Definition isAdmin (s : session) : bool :=
  strict_eq_str (opt_prop (currentUser s) "role") "ROLE_ADMIN".

Definition isUser (s : session) : bool :=
  strict_eq_str (opt_prop (currentUser s) "role") "ROLE_USER".

Definition isLoggedIn (s : session) : bool :=
  negb (negb (truthy (token s))) && negb (negb (truthy (currentUser s))).

Definition getUserDisplayName (s : session) : value :=
  js_or (opt_prop (currentUser s) "username") (VStr "Guest").

Section Effects.
(** [JSON.parse]: [None] when it throws a [SyntaxError]. *)
Variable JSON_parse : string -> option value.
Variable net : network.

Definition parse (text : value) : Js state value :=
  let* text := text_of text in
  match JSON_parse text with
  | Some v => ret v
  | None => throw (JsError "SyntaxError" "Unexpected token in JSON")
  end.

(** The effect that runs on mount and whenever [token] changes. *)
Definition initializeAuth : Js state unit :=
  let* token := read token in
  (if truthy token then
     (* Parse user info from localStorage *)
     let* userInfo := outside (getItem "userInfo") in
     if truthy userInfo then
       try_catch
         (let* parsedUser := parse userInfo in
          setCurrentUser parsedUser)
         (fun error => logout)
     else ret tt
   else ret tt);;
  setLoading false.

Definition login (username password : value) : Js state result :=
  setLoading true;;
  try_finally
    (try_catch
       (let* result :=
          outside (APIService.login net
                     (VObj [("username", username); ("password", password)])) in
        if success result then
          let* payload := require_object_coercible (field (data result)) in
          let token := prop payload "token" in
          let user := prop payload "username" in
          let role := prop payload "role" in
          let userInfo := VObj [("username", user); ("role", role)] in
          outside (setItem "token" token);;
          outside (setItem "userInfo" (JSON_stringify userInfo));;
          setToken token;;
          setCurrentUser userInfo;;
          ret {| success := true; data := None; error := None |}
        else ret result)
       (fun error =>
          ret {| success := false; data := None;
                 error := Some (VStr "An unexpected error occurred during login") |}))
    (setLoading false).

Definition register (userData : value) : Js state result :=
  setLoading true;;
  try_finally
    (try_catch
       ((* the logged object reads [userData.adminKey] *)
        require_object_coercible userData;;
        let* result := outside (APIService.register net userData) in
        if success result then
          ret {| success := true; data := None; error := None |}
        else ret result)
       (fun error =>
          ret {| success := false; data := None;
                 error := Some (VStr "An unexpected error occurred during registration") |}))
    (setLoading false).
End Effects.

End AuthProvider.

(** ** The pages that call the session manager *)

(** A page: the state cells of the instance of the component that is
    shown, the session manager it reads through [useAuth], and the router
    navigations its handlers have asked for ([navigate(path, { replace })]).
    The effect that the login and registration pages run when they mount, to
    send a signed-in visitor to [/], is not part of the model, and neither is
    what the router shows after a navigation. *)
Record page (C : Type) : Type := {
  view : C;
  auth : AuthProvider.state;
  routed : list (string * bool)
}.
Arguments view {C} p.
Arguments auth {C} p.
Arguments routed {C} p.

(** Code of the session manager that leaves [loading] alone, run from a
    page. *)
Definition in_auth {C A} (m : Js AuthProvider.state A) : Js (page C) A :=
  fun p =>
    match m (auth p) with
    | (c, st') => (c, {| view := view p; auth := st'; routed := routed p |})
    end.

(** [login] and [register] set [loading] for the time of their call, and
    the provider renders [{!loading && children}]: the page that made the
    call is unmounted, and when the call returns a new instance of it is
    mounted, with the state [fresh] gives it. *)
Definition remounting {C A} (fresh : C -> C) (m : Js AuthProvider.state A)
  : Js (page C) A :=
  fun p =>
    match m (auth p) with
    | (c, st') => (c, {| view := fresh (view p); auth := st'; routed := routed p |})
    end.

(** The rest of a handler of the unmounted instance: its state setters
    no longer reach the page that is shown.  [keep] says what becomes of the
    shown state, given what the handler wrote. *)
Definition detached {C A} (keep : C -> C -> C) (m : Js (page C) A) : Js (page C) A :=
  fun p =>
    match m p with
    | (c, p') => (c, {| view := keep (view p) (view p'); auth := auth p';
                        routed := routed p' |})
    end.

Definition set_view {C} (f : C -> C) : Js (page C) unit :=
  fun p => (Normal tt, {| view := f (view p); auth := auth p; routed := routed p |}).

Definition get_view {C A} (f : C -> A) : Js (page C) A :=
  fun p => (Normal (f (view p)), p).

Definition navigate {C} (path : string) (replace : bool) : Js (page C) unit :=
  fun p =>
    (Normal tt, {| view := view p; auth := auth p;
                   routed := routed p ++ [(path, replace)] |}).

(** [result.error] *)
Definition result_error (r : result) : value := field (error r).

(** The [Login] component. *)
Module Login.

Record fields : Type := {
  username : string;
  password : string
}.

Record component : Type := {
  formData : fields;
  error : value;
  isSubmitting : bool
}.

Definition setError (v : value) : Js (page component) unit :=
  set_view (fun c => {| formData := formData c; error := v;
                        isSubmitting := isSubmitting c |}).

Definition setIsSubmitting (b : bool) : Js (page component) unit :=
  set_view (fun c => {| formData := formData c; error := error c;
                        isSubmitting := b |}).

(** The initial values given to [useState]. *)
Definition initial : component :=
  {| formData := {| username := ""; password := "" |};
     error := VStr "";
     isSubmitting := false |}.

Definition unmounted {A} (m : Js (page component) A) : Js (page component) A :=
  detached (fun shown _ => shown) m.

Section Handlers.
(** [String.prototype.trim] and the [length] of a string. *)
Variable trim : string -> string.
Variable length : string -> Z.
Variable net : network.

Definition validateForm : Js (page component) bool :=
  let* formData := get_view formData in
  if negb (truthy (VStr (trim (username formData)))) then
    setError (VStr "Username is required");;
    ret false
  else if negb (truthy (VStr (trim (password formData)))) then
    setError (VStr "Password is required");;
    ret false
  else if length (username formData) <? 3 then
    setError (VStr "Username must be at least 3 characters");;
    ret false
  else ret true.

Definition handleSubmit : Js (page component) unit :=
  let* formData := get_view formData in
  let* valid := validateForm in
  if negb valid then ret tt
  else
    setError (VStr "");;
    setIsSubmitting true;;
    try_finally
      (try_catch
         (let* result :=
            remounting (fun _ => initial)
              (AuthProvider.login net (VStr (trim (username formData)))
                 (VStr (password formData))) in
          unmounted
            (if success result then navigate "/" true
             else setError (js_or (result_error result)
                              (VStr "Login failed. Please try again."))))
         (fun error =>
            unmounted
              (setError (VStr "An unexpected error occurred. Please try again."))))
      (unmounted (setIsSubmitting false)).
End Handlers.

End Login.

(** [String.prototype.includes] on a string, with an ASCII needle. *)
Fixpoint contains (needle s : string) : bool :=
  String.prefix needle s
  || match s with
     | EmptyString => false
     | String _ rest => contains needle rest
     end.

(** [v.includes(needle)] for a string literal [needle]: strings and arrays
    have the method, on any other value the call throws a [TypeError]. *)
Definition includes {S} (v : value) (needle : string) : Js S bool :=
  match v with
  | VStr s => ret (contains needle s)
  | VArr items => ret (existsb (fun x => strict_eq_str x needle) items)
  | _ => throw (JsError "TypeError" "includes is not a function")
  end.

(** [/^[a-zA-Z0-9_]+$/.test(s)] *)
Definition word_char (c : ascii) : bool :=
  let n := N_of_ascii c in
  ((97 <=? n) && (n <=? 122) || (65 <=? n) && (n <=? 90) || (48 <=? n) && (n <=? 57)
   || (n =? 95))%N.

Fixpoint all_word_chars (s : string) : bool :=
  match s with
  | EmptyString => true
  | String c rest => word_char c && all_word_chars rest
  end.

Definition word_pattern (s : string) : bool :=
  match s with
  | EmptyString => false
  | String _ _ => all_word_chars s
  end.

(** The [Register] component. *)
Module Register.

Record fields : Type := {
  username : string;
  password : string;
  email : string;
  fullName : string;
  role : string;
  adminKey : string
}.

Record component : Type := {
  formData : fields;
  errors : gmap string value;
  successMessage : string;
  isSubmitting : bool;
  timers : list (Z * string)      (* setTimeout(() => navigate(path), delay) *)
}.

Definition blank : fields :=
  {| username := ""; password := ""; email := ""; fullName := "";
     role := "USER"; adminKey := "" |}.

Definition setFormData (f : fields) : Js (page component) unit :=
  set_view (fun c => {| formData := f; errors := errors c;
                        successMessage := successMessage c;
                        isSubmitting := isSubmitting c; timers := timers c |}).

Definition setErrors (e : gmap string value) : Js (page component) unit :=
  set_view (fun c => {| formData := formData c; errors := e;
                        successMessage := successMessage c;
                        isSubmitting := isSubmitting c; timers := timers c |}).

Definition setSuccessMessage (m : string) : Js (page component) unit :=
  set_view (fun c => {| formData := formData c; errors := errors c;
                        successMessage := m;
                        isSubmitting := isSubmitting c; timers := timers c |}).

Definition setIsSubmitting (b : bool) : Js (page component) unit :=
  set_view (fun c => {| formData := formData c; errors := errors c;
                        successMessage := successMessage c;
                        isSubmitting := b; timers := timers c |}).

Definition setTimeout_navigate (path : string) (delay : Z) : Js (page component) unit :=
  set_view (fun c => {| formData := formData c; errors := errors c;
                        successMessage := successMessage c;
                        isSubmitting := isSubmitting c;
                        timers := timers c ++ [(delay, path)] |}).

(** The initial values given to [useState]; the timers are not state of
    the component and outlive it. *)
Definition initial (pending : list (Z * string)) : component :=
  {| formData := blank; errors := ∅; successMessage := ""; isSubmitting := false;
     timers := pending |}.

Definition unmounted {A} (m : Js (page component) A) : Js (page component) A :=
  detached (fun shown written =>
              {| formData := formData shown; errors := errors shown;
                 successMessage := successMessage shown;
                 isSubmitting := isSubmitting shown;
                 timers := timers written |}) m.

Section Handlers.
(** [String.prototype.trim], the [length] of a string, and
    [/^[^\s@]+@[^\s@]+\.[^\s@]+$/.test]. *)
Variable trim : string -> string.
Variable length : string -> Z.
Variable email_pattern : string -> bool.
Variable net : network.

(** The object [newErrors] that [validateForm] builds. *)
Definition newErrors (formData : fields) : gmap string value :=
  let newErrors : gmap string value := ∅ in
  (* Username validation *)
  let newErrors :=
    if negb (truthy (VStr (trim (username formData)))) then
      <["username" := VStr "Username is required"]> newErrors
    else if length (username formData) <? 3 then
      <["username" := VStr "Username must be at least 3 characters"]> newErrors
    else if negb (word_pattern (username formData)) then
      <["username" := VStr "Username can only contain letters, numbers, and underscores"]>
        newErrors
    else newErrors in
  (* Password validation *)
  let newErrors :=
    if negb (truthy (VStr (password formData))) then
      <["password" := VStr "Password is required"]> newErrors
    else if length (password formData) <? 6 then
      <["password" := VStr "Password must be at least 6 characters"]> newErrors
    else newErrors in
  (* Email validation (optional but if provided should be valid) *)
  let newErrors :=
    if truthy (VStr (email formData)) && negb (email_pattern (email formData)) then
      <["email" := VStr "Please enter a valid email address"]> newErrors
    else newErrors in
  (* Admin key validation *)
  let newErrors :=
    if String.eqb (role formData) "ADMIN"
       && negb (truthy (VStr (trim (adminKey formData)))) then
      <["adminKey" := VStr "Admin key is required for admin registration"]> newErrors
    else newErrors in
  newErrors.

Definition validateForm : Js (page component) bool :=
  let* formData := get_view formData in
  let newErrors := newErrors formData in
  setErrors newErrors;;
  ret (Nat.eqb (size newErrors) 0).

(** Prepare data for submission (remove empty fields). *)
Definition submitData (formData : fields) : value :=
  let submitData :=
    [("username", VStr (trim (username formData)));
     ("password", VStr (password formData));
     ("role", VStr (role formData))] in
  let submitData :=
    if truthy (VStr (trim (email formData)))
    then submitData ++ [("email", VStr (trim (email formData)))]
    else submitData in
  let submitData :=
    if truthy (VStr (trim (fullName formData)))
    then submitData ++ [("fullName", VStr (trim (fullName formData)))]
    else submitData in
  let submitData :=
    if String.eqb (role formData) "ADMIN"
    then submitData ++ [("adminKey", VStr (trim (adminKey formData)))]
    else submitData in
  VObj submitData.

Definition handleSubmit : Js (page component) unit :=
  let* formData := get_view formData in
  let* valid := validateForm in
  if negb valid then ret tt
  else
    setIsSubmitting true;;
    setErrors ∅;;
    setSuccessMessage "";;
    let submitData := submitData formData in
    try_finally
      (try_catch
         (let* result :=
            remounting (fun c => initial (timers c))
              (AuthProvider.register net submitData) in
          unmounted
            (if success result then
               setSuccessMessage
                 "Registration successful! Please sign in with your credentials.";;
               (* Reset form *)
               setFormData blank;;
               (* Redirect to login after 2 seconds *)
               setTimeout_navigate "/login" 2000
             else
               (* Handle specific error cases *)
               let* exists_already := includes (result_error result) "already exists" in
               if exists_already then
                 setErrors {[ "username" :=
                                VStr "Username already exists. Please choose a different one." ]}
               else
                 let* about_key := includes (result_error result) "admin key" in
                 if about_key then
                   setErrors {[ "adminKey" :=
                                  VStr "Invalid admin key. Please contact the administrator." ]}
                 else setErrors {[ "general" := result_error result ]}))
         (fun error =>
            unmounted
              (setErrors {[ "general" :=
                              VStr "An unexpected error occurred. Please try again." ]})))
      (unmounted (setIsSubmitting false)).
End Handlers.

End Register.

(** Code that only touches the world, run from a page. *)
Definition in_world {C A} (m : Js world A) : Js (page C) A :=
  in_auth (AuthProvider.outside m).

(** [v.length === 0]: arrays and strings have a length, an object may
    have a property of that name, [undefined] and [null] throw. *)
Definition length_is_zero {S} (length : string -> Z) (v : value) : Js S bool :=
  match v with
  | VUndefined | VNull =>
      throw (JsError "TypeError" "Cannot read properties of undefined or null")
  | VArr items => ret (Z.of_nat (List.length items) =? 0)
  | VStr s => ret (length s =? 0)
  | VObj fields =>
      ret match lookup_field "length" fields with
          | VNum n => n =? 0
          | _ => false
          end
  | _ => ret false
  end.

(** The [BookSearch] component (without its speech recognition). *)
Module BookSearch.

Record component : Type := {
  searchTerm : string;
  books : value;
  loading : bool;
  hasSearched : bool;
  error : value;
  selectedBook : value;
  bookingLoading : bool;
  successMessage : string
}.

Definition setSearchTerm (x : string) : Js (page component) unit :=
  set_view (fun c => {| searchTerm := x; books := books c; loading := loading c;
                        hasSearched := hasSearched c; error := error c;
                        selectedBook := selectedBook c;
                        bookingLoading := bookingLoading c;
                        successMessage := successMessage c |}).

(** The cell holds the array it is given; each render then sorts that
    array in place by quantity, which is not modelled: what is said about
    this cell below is said of the empty list only. *)
Definition setBooks (x : value) : Js (page component) unit :=
  set_view (fun c => {| searchTerm := searchTerm c; books := x; loading := loading c;
                        hasSearched := hasSearched c; error := error c;
                        selectedBook := selectedBook c;
                        bookingLoading := bookingLoading c;
                        successMessage := successMessage c |}).

Definition setLoading (x : bool) : Js (page component) unit :=
  set_view (fun c => {| searchTerm := searchTerm c; books := books c; loading := x;
                        hasSearched := hasSearched c; error := error c;
                        selectedBook := selectedBook c;
                        bookingLoading := bookingLoading c;
                        successMessage := successMessage c |}).

Definition setHasSearched (x : bool) : Js (page component) unit :=
  set_view (fun c => {| searchTerm := searchTerm c; books := books c; loading := loading c;
                        hasSearched := x; error := error c;
                        selectedBook := selectedBook c;
                        bookingLoading := bookingLoading c;
                        successMessage := successMessage c |}).

Definition setError (x : value) : Js (page component) unit :=
  set_view (fun c => {| searchTerm := searchTerm c; books := books c; loading := loading c;
                        hasSearched := hasSearched c; error := x;
                        selectedBook := selectedBook c;
                        bookingLoading := bookingLoading c;
                        successMessage := successMessage c |}).

Definition setSelectedBook (x : value) : Js (page component) unit :=
  set_view (fun c => {| searchTerm := searchTerm c; books := books c; loading := loading c;
                        hasSearched := hasSearched c; error := error c;
                        selectedBook := x;
                        bookingLoading := bookingLoading c;
                        successMessage := successMessage c |}).

Definition setBookingLoading (x : bool) : Js (page component) unit :=
  set_view (fun c => {| searchTerm := searchTerm c; books := books c; loading := loading c;
                        hasSearched := hasSearched c; error := error c;
                        selectedBook := selectedBook c;
                        bookingLoading := x;
                        successMessage := successMessage c |}).

Definition setSuccessMessage (x : string) : Js (page component) unit :=
  set_view (fun c => {| searchTerm := searchTerm c; books := books c; loading := loading c;
                        hasSearched := hasSearched c; error := error c;
                        selectedBook := selectedBook c;
                        bookingLoading := bookingLoading c;
                        successMessage := x |}).

Section Handlers.
Variable trim : string -> string.
Variable length : string -> Z.
Variable net : network.

Definition fetchAllBooks : Js (page component) unit :=
  setLoading true;;
  setError (VStr "");;
  try_finally
    (try_catch
       (let* result := in_world (APIService.getAvailableBooks net) in
        if success result then setBooks (field (data result))
        else
          setError (result_error result);;
          setBooks (VArr []))
       (fun error =>
          setError (VStr "Failed to load books. Please try again later.");;
          setBooks (VArr [])))
    (setLoading false).

(** The calls of [fetchAllBooks] that are not awaited are run to their
    end where they are made; they and the code after them write different
    cells. *)
Definition performSearch (query : string) : Js (page component) unit :=
  let trimmedQuery := trim query in
  if negb (truthy (VStr trimmedQuery)) then
    fetchAllBooks;;
    setHasSearched false
  else
    setLoading true;;
    setError (VStr "");;
    setHasSearched true;;
    try_finally
      (try_catch
         (let* result := in_world (APIService.searchBooks net trimmedQuery) in
          if success result then
            setBooks (field (data result));;
            let* none := length_is_zero length (field (data result)) in
            if none then
              setError (VStr ("No books found for " +:+ quoted trimmedQuery
                              +:+ ". Try different keywords."))
            else ret tt
          else
            setError (result_error result);;
            setBooks (VArr []))
         (fun error =>
            setError (VStr "Failed to search books. Please try again later.");;
            setBooks (VArr [])))
      (setLoading false).

Definition handleSearch : Js (page component) unit :=
  let* searchTerm := get_view searchTerm in
  performSearch searchTerm.

Definition bookBook (bookId : value) : Js (page component) unit :=
  let* logged_in := in_auth (AuthProvider.read AuthProvider.isLoggedIn) in
  if negb logged_in then navigate "/login" false
  else
    let* searchTerm := get_view searchTerm in
    setBookingLoading true;;
    setError (VStr "");;
    setSuccessMessage "";;
    try_finally
      (try_catch
         (let* result := in_world (APIService.bookBook net (VObj [("bookId", bookId)])) in
          if success result then
            setSuccessMessage
              "Book booked successfully! Check your bookings to track the status.";;
            (* Refresh the search results *)
            (if truthy (VStr (trim searchTerm)) then handleSearch else fetchAllBooks);;
            setSelectedBook VNull
          else setError (result_error result))
         (fun error => setError (VStr "Failed to book the book. Please try again.")))
      (setBookingLoading false).

Definition clearSearch : Js (page component) unit :=
  setSearchTerm "";;
  setHasSearched false;;
  setError (VStr "");;
  setSuccessMessage "";;
  fetchAllBooks.
End Handlers.

End BookSearch.

(** ** The data model of the specification *)

(** The roles of the data model, and the strings the backend uses for them
    (the literals of [isAdmin] and [isUser]; the admin panel strips the
    [ROLE_] prefix to display them). *)
Inductive Role : Type := USER | ADMIN.

Definition role_string (r : Role) : string :=
  match r with
  | USER => "ROLE_USER"
  | ADMIN => "ROLE_ADMIN"
  end.

Definition user_value (username : string) (r : Role) : value :=
  VObj [("username", VStr username); ("role", VStr (role_string r))].

(** A value is absent when it is [null] or [undefined]; a token is held
    when it is a non-empty string. *)
Definition absent (v : value) : Prop := v = VNull \/ v = VUndefined.

Definition holds_token (v : value) (t : string) : Prop := v = VStr t /\ t <> "".

Definition token_present (v : value) : Prop := exists t, holds_token v t.

Definition user_present (v : value) : Prop := exists name r, v = user_value name r.

(** The session states of the data model: each of the two fields is either
    absent ([null]) or a value of its type. *)
Definition in_data_model (s : session) : Prop :=
  (token s = VNull \/ token_present (token s))
  /\ (currentUser s = VNull \/ user_present (currentUser s)).

(** ** What one call of the gateway does, in closed form *)

(** Method, path and payload of the request each operation makes; [None]
    when the path cannot be built because an identifier does not convert to
    a string, in which case no request is made. *)
Definition wire (op : operation) : option (string * string * value) :=
  match op with
  | Login credentials => Some ("post", "/api/auth/login", credentials)
  | Register userData => Some ("post", "/api/auth/register", userData)
  | GetAvailableBooks => Some ("get", "/api/user/books/available", VUndefined)
  | SearchBooks query =>
      Some ("get", "/api/user/books/search?query=" +:+ encodeURIComponent query, VUndefined)
  | GetBookById id =>
      id ← to_string id; Some ("get", "/api/user/books/" +:+ id, VUndefined)
  | BookBook bookingData => Some ("post", "/api/user/books/book", bookingData)
  | GetUserBookings => Some ("get", "/api/user/bookings", VUndefined)
  | GetActiveBookings => Some ("get", "/api/user/bookings/active", VUndefined)
  | ReturnBook bookingId =>
      bookingId ← to_string bookingId;
      Some ("put", "/api/user/bookings/" +:+ bookingId +:+ "/return", VUndefined)
  | SendChatMessage message language =>
      Some ("post", "/api/user/chat",
            VObj [("message", message);
                  ("language", match language with VUndefined => VStr "en" | _ => language end)])
  | Post endpoint data => Some ("post", endpoint, data)
  | Get endpoint => Some ("get", endpoint, VUndefined)
  | GetAllBooks => Some ("get", "/api/admin/books", VUndefined)
  | CreateBook bookData => Some ("post", "/api/admin/books", bookData)
  | UpdateBook id bookData =>
      id ← to_string id; Some ("put", "/api/admin/books/" +:+ id, bookData)
  | DeleteBook id =>
      id ← to_string id; Some ("delete", "/api/admin/books/" +:+ id, VUndefined)
  | UpdateBookQuantity id quantity =>
      id ← to_string id;
      quantity ← to_string quantity;
      Some ("put", "/api/admin/books/" +:+ id +:+ "/quantity?quantity=" +:+ quantity,
            VUndefined)
  | GetAllUsers => Some ("get", "/api/admin/users", VUndefined)
  | GetUserById id =>
      id ← to_string id; Some ("get", "/api/admin/users/" +:+ id, VUndefined)
  | UpdateUser id userData =>
      id ← to_string id; Some ("put", "/api/admin/users/" +:+ id, userData)
  | DeleteUser id =>
      id ← to_string id; Some ("delete", "/api/admin/users/" +:+ id, VUndefined)
  | GetAllBookings => Some ("get", "/api/admin/bookings", VUndefined)
  | AdminReturnBook bookingId =>
      bookingId ← to_string bookingId;
      Some ("put", "/api/admin/bookings/" +:+ bookingId +:+ "/return", VUndefined)
  end.

(** The configuration that leaves the request interceptor. *)
Definition with_token (w : world) (config : request) : request :=
  match localStorage w !! "token" with
  | Some (String c rest) => api.set_authorization ("Bearer " +:+ String c rest) config
  | _ => config
  end.

Definition configured (w : world) (shape : string * string * value) : request :=
  match shape with
  | (verb, endpoint, payload) =>
      with_token w {| method := verb; url := endpoint; body := payload;
                      headers := api.default_headers |}
  end.

(** The request a call of the operation hands to the adapter, if it gets
    that far. *)
Definition outgoing (op : operation) (w : world) : option request :=
  configured w <$> wire op.

Definition after_send (config : request) (w : world) : world :=
  {| localStorage := localStorage w;
     navigations := navigations w;
     sent := sent w ++ [config] |}.

Definition evicted (w : world) : world :=
  {| localStorage := delete "userInfo" (delete "token" (localStorage w));
     navigations := navigations w ++ ["/login"];
     sent := sent w |}.

Definition after_rejection (e : axios_error) (w : world) : world :=
  if status_is_401 e then evicted w else w.

(** The fallback message of each endpoint method, and its [catch] block. *)
Definition fallback (op : operation) : string :=
  match op with
  | Login _ => "Login failed"
  | Register _ => "Registration failed"
  | GetAvailableBooks => "Failed to fetch books"
  | SearchBooks _ => "Search failed"
  | GetBookById _ => "Failed to fetch book details"
  | BookBook _ => "Failed to book the book"
  | GetUserBookings => "Failed to fetch bookings"
  | GetActiveBookings => "Failed to fetch active bookings"
  | ReturnBook _ => "Failed to return book"
  | SendChatMessage _ _ => "Failed to send message"
  | Post _ _ | Get _ => ""
  | GetAllBooks => "Failed to fetch all books"
  | CreateBook _ => "Failed to create book"
  | UpdateBook _ _ => "Failed to update book"
  | DeleteBook _ => "Failed to delete book"
  | UpdateBookQuantity _ _ => "Failed to update book quantity"
  | GetAllUsers => "Failed to fetch users"
  | GetUserById _ => "Failed to fetch user"
  | UpdateUser _ _ => "Failed to update user"
  | DeleteUser _ => "Failed to delete user"
  | GetAllBookings => "Failed to fetch bookings"
  | AdminReturnBook _ => "Failed to return book"
  end.

(** The message an admin list method builds in its [catch] block, when
    the conversions go through. *)
Definition admin_text (prefix : string) (e : axios_error) : option string :=
  status ← to_string (exn_status (AxiosError e));
  detail ← to_string (js_or (exn_data (AxiosError e)) (VStr (error_message e)));
  Some (prefix +:+ ": " +:+ status +:+ " " +:+ detail).

Definition caught (op : operation) (e : axios_error) : completion returned :=
  if is_generic op then Throw (AxiosError e)
  else if is_admin_list op then
    match admin_text (fallback op) e with
    | Some text =>
        Normal (Shaped {| success := false; data := Some (VArr []);
                          error := Some (VStr text) |})
    | None => Throw unprintable
    end
  else if is_list op then Normal (Shaped (failed_list (fallback op) (AxiosError e)))
  else Normal (Shaped (failed (fallback op) (AxiosError e))).

(** What a method returns when its path could not be built: the exception
    is caught by the method's own [catch] block. *)
Definition unbuilt (op : operation) : completion returned :=
  Normal (Shaped (failed (fallback op) unprintable)).

Definition fulfilled (op : operation) (r : http_response) : completion returned :=
  if is_generic op then Normal (RawResponse r) else Normal (Shaped (succeeded r)).

(** The server answered, with this status. *)
Definition has_status (e : axios_error) (code : Z) : Prop :=
  exists r, error_response e = Some r /\ response_status r = code.


(** ** What the session manager leaves behind, in closed form *)

Definition stopped_loading (s : session) : session :=
  {| currentUser := currentUser s; token := token s; loading := false |}.

Definition credentials_of (username password : value) : value :=
  VObj [("username", username); ("password", password)].

Definition user_info_of (payload : value) : value :=
  VObj [("username", prop payload "username"); ("role", prop payload "role")].

(** The JSON text of [{ username, role }] for this response payload. *)
Definition user_info_text (payload : value) : string :=
  match stringify (user_info_of payload) with
  | Some text => text
  | None => ""
  end.

(** Storage after a successful login with this response payload, whose
    token converts to [token_text]. *)
Definition signed_in_storage (token_text : string) (payload : value)
  (storage : gmap string string) : gmap string string :=
  <["userInfo" := user_info_text payload]> (<["token" := token_text]> storage).

Definition login_succeeded : result :=
  {| success := true; data := None; error := None |}.

Definition login_unexpected : result :=
  {| success := false; data := None;
     error := Some (VStr "An unexpected error occurred during login") |}.

(** Nothing is left of a session: both storage keys are gone and both
    state cells are [null]. *)
Definition logged_out (st : AuthProvider.state) : Prop :=
  localStorage (snd st) !! "token" = None
  /\ localStorage (snd st) !! "userInfo" = None
  /\ token (fst st) = VNull
  /\ currentUser (fst st) = VNull.

(** The token cell of the session manager agrees with storage. *)
Definition in_step (st : AuthProvider.state) : Prop :=
  token (fst st) = match localStorage (snd st) !! "token" with
                   | Some t => VStr t
                   | None => VNull
                   end.

(** ** Sequences of calls *)

Fixpoint invoke_all (net : network) (ops : list operation) (w : world) : world :=
  match ops with
  | [] => w
  | op :: rest => invoke_all net rest (snd (invoke net op w))
  end.

(** The backend never answers 401. *)
Definition never_unauthorized (net : network) : Prop :=
  forall history config e, net history config = Rejected e -> status_is_401 e = false.

(** ** Some concrete worlds and backends, used as test inputs *)

Definition fresh_world : world :=
  {| localStorage := ∅; navigations := []; sent := [] |}.

Definition signed_in_world : world :=
  {| localStorage :=
       <["userInfo" := "{" +:+ quoted "username" +:+ ":" +:+ quoted "bob" +:+ ","
                       +:+ quoted "role" +:+ ":" +:+ quoted "ROLE_USER" +:+ "}"]>
         (<["token" := "t0"]> ∅);
     navigations := [];
     sent := [] |}.

Definition timeout_error : axios_error :=
  {| error_response := None; error_message := "timeout of 10000ms exceeded" |}.

Definition server_error (code : Z) (payload : value) : axios_error :=
  {| error_response := Some {| response_status := code; response_data := payload |};
     error_message := "Request failed with status code " +:+ pretty code |}.

Definition always (o : outcome) : network := fun _ _ => o.

Definition alice_payload : value :=
  VObj [("token", VStr "t1"); ("username", VStr "alice"); ("role", VStr "ROLE_USER")].

Definition alice_user_info : string :=
  "{" +:+ quoted "username" +:+ ":" +:+ quoted "alice" +:+ ","
  +:+ quoted "role" +:+ ":" +:+ quoted "ROLE_USER" +:+ "}".

Definition signed_in_session : session :=
  {| currentUser := user_value "bob" USER; token := VStr "t0"; loading := false |}.

Definition anonymous_session : session :=
  {| currentUser := VNull; token := VNull; loading := false |}.

(** ** More closed forms *)

(** Method, path and payload of a request, without its headers. *)
Definition shape_of (config : request) : string * string * value :=
  (method config, url config, body config).

(** [error.response?.data] of the error axios rejects with. *)
Definition payload_of (e : axios_error) : value := exn_data (AxiosError e).

Definition register_unexpected : result :=
  {| success := false; data := None;
     error := Some (VStr "An unexpected error occurred during registration") |}.

(** A page load: the component mounts and its effect runs. *)
Definition reload (JSON_parse : string -> option value) (w : world)
  : completion unit * AuthProvider.state :=
  AuthProvider.initializeAuth JSON_parse (AuthProvider.mount w).



(** The requests of the two calls the session manager makes. *)
Definition login_request (credentials : value) (w : world) : request :=
  configured w ("post", "/api/auth/login", credentials).

Definition register_request (userData : value) (w : world) : request :=
  configured w ("post", "/api/auth/register", userData).

(** The conversion of the value to a string goes through. *)
Definition converts (v : value) : bool :=
  match to_string v with
  | Some _ => true
  | None => false
  end.


(** The JSON body [{ toString: 1 }]: an object whose own [toString] is not
    a function. *)
Definition unprintable_payload : value := VObj [("toString", VNum 1)].

(** Storage that holds a token and no user information. *)
Definition orphan_world : world :=
  {| localStorage := {[ "token" := "t0" ]}; navigations := []; sent := [] |}.

(** The requests of the two calls the search page makes to list books. *)
Definition catalogue_request (w : world) : request :=
  configured w ("get", "/api/user/books/available", VUndefined).

Definition search_request (query : string) (w : world) : request :=
  configured w ("get", "/api/user/books/search?query=" +:+ encodeURIComponent query,
                VUndefined).

(** ** Properties *)

(** *** The axios pipeline *)

Lemma request_interceptor_run config w :
  api.request_interceptor config w = (Normal (with_token w config), w).
Proof.
  unfold api.request_interceptor, bind, getItem, with_token.
  destruct (localStorage w !! "token") as [[|c rest]|]; reflexivity.
Qed.

Lemma response_interceptor_run e w :
  api.response_interceptor e w = (Throw (AxiosError e), after_rejection e w).
Proof.
  unfold api.response_interceptor, after_rejection, bind.
  destruct (status_is_401 e); [|destruct w; reflexivity].
  reflexivity.
Qed.

Lemma request_run net verb endpoint payload w :
  api.request_ net verb endpoint payload w =
  let config := configured w (verb, endpoint, payload) in
  match net (sent w) config with
  | Resolved r => (Normal r, after_send config w)
  | Rejected e => (Throw (AxiosError e), after_rejection e (after_send config w))
  end.
Proof.
  unfold api.request_, bind at 1. rewrite request_interceptor_run.
  unfold bind, api.dispatch, configured. cbn zeta.
  destruct (net (sent w) _); [reflexivity|].
  apply response_interceptor_run.
Qed.

Lemma guarded_run net verb endpoint payload handler w :
  guarded (api.request_ net verb endpoint payload) handler w =
  let config := configured w (verb, endpoint, payload) in
  match net (sent w) config with
  | Resolved r => (Normal (succeeded r), after_send config w)
  | Rejected e => (Normal (handler (AxiosError e)), after_rejection e (after_send config w))
  end.
Proof.
  unfold guarded, try_catch, bind. rewrite request_run. cbn zeta.
  destruct (net (sent w) _); reflexivity.
Qed.

(** A path that cannot be built: the exception of the template literal is
    raised inside the [try] block, before any request. *)
Lemma guarded_text_run (v : value) (call : string -> Js world http_response) handler w :
  guarded (let* text := text_of v in call text) handler w =
  match to_string v with
  | Some text => guarded (call text) handler w
  | None => (Normal (handler unprintable), w)
  end.
Proof.
  unfold guarded, try_catch, bind, text_of.
  destruct (to_string v); reflexivity.
Qed.

Lemma failed_admin_list_run prefix e (w : world) :
  failed_admin_list prefix (AxiosError e) w =
  (match admin_text prefix e with
   | Some text =>
       Normal {| success := false; data := Some (VArr []); error := Some (VStr text) |}
   | None => Throw unprintable
   end, w).
Proof.
  unfold failed_admin_list, admin_text, bind, text_of. cbn [exn_message].
  destruct (to_string (exn_status (AxiosError e))); [|reflexivity]. cbn.
  destruct (to_string (js_or _ _)); reflexivity.
Qed.

Lemma guarded_admin_list_run net verb endpoint payload prefix w :
  guarded_admin_list (api.request_ net verb endpoint payload) prefix w =
  let config := configured w (verb, endpoint, payload) in
  match net (sent w) config with
  | Resolved r => (Normal (succeeded r), after_send config w)
  | Rejected e =>
      (match admin_text prefix e with
       | Some text =>
           Normal {| success := false; data := Some (VArr []); error := Some (VStr text) |}
       | None => Throw unprintable
       end, after_rejection e (after_send config w))
  end.
Proof.
  unfold guarded_admin_list, try_catch, bind. rewrite request_run. cbn zeta.
  destruct (net (sent w) _); [reflexivity|]. apply failed_admin_list_run.
Qed.

(** One call of any operation: when the path can be built the request of
    [outgoing] is sent once, and the result is decided by how the backend
    settles it; otherwise nothing is sent. *)
Lemma invoke_run net op w :
  invoke net op w =
  match outgoing op w with
  | None => (unbuilt op, w)
  | Some config =>
      match net (sent w) config with
      | Resolved r => (fulfilled op r, after_send config w)
      | Rejected e => (caught op e, after_rejection e (after_send config w))
      end
  end.
Proof.
  destruct op; unfold invoke, outgoing, wire, fulfilled, caught, unbuilt;
    cbn [is_generic is_list is_admin_list fallback].
  all: unfold shaped, raw, bind at 1.
  all: try (unfold APIService.post, APIService.get, bind at 1).
  all: unfold APIService.login, APIService.register, APIService.getAvailableBooks,
       APIService.searchBooks, APIService.getBookById, APIService.bookBook,
       APIService.getUserBookings, APIService.getActiveBookings, APIService.returnBook,
       APIService.sendChatMessage, APIService.getAllBooks, APIService.createBook,
       APIService.updateBook, APIService.deleteBook, APIService.updateBookQuantity,
       APIService.getAllUsers, APIService.getUserById, APIService.updateUser,
       APIService.deleteUser, APIService.getAllBookings, APIService.adminReturnBook,
       api.get, api.post, api.put, api.delete.
  all: repeat (rewrite guarded_text_run;
               match goal with
               | |- context [to_string ?v] => destruct (to_string v); [|reflexivity]
               end).
  all: first [rewrite guarded_run | rewrite guarded_admin_list_run | rewrite request_run];
    cbn zeta; cbn [fmap option_fmap option_map mbind option_bind].
  all: destruct (net (sent w) _) as [r|e]; try reflexivity.
  all: destruct (admin_text _ e); reflexivity.
Qed.

Lemma outgoing_built op w shape :
  wire op = Some shape -> outgoing op w = Some (configured w shape).
Proof. unfold outgoing. intros ->. reflexivity. Qed.

Lemma outgoing_unbuilt op w : wire op = None -> outgoing op w = None.
Proof. unfold outgoing. intros ->. reflexivity. Qed.

Lemma invoke_sends net op w :
  sent (snd (invoke net op w)) = sent w ++ option_list (outgoing op w).
Proof.
  rewrite invoke_run. destruct (outgoing op w) as [config|]; cbn [option_list snd].
  - destruct (net (sent w) _) as [r|e]; [reflexivity|].
    unfold after_rejection. destruct (status_is_401 e); reflexivity.
  - symmetry. apply app_nil_r.
Qed.

Lemma js_or_truthy a b : truthy b = true -> truthy (js_or a b) = true.
Proof. unfold js_or. destruct (truthy a) eqn:Ha; auto. Qed.

Lemma js_or_left a b : truthy a = true -> js_or a b = a.
Proof. unfold js_or. intros ->. reflexivity. Qed.


Lemma admin_list_is_not_generic op : is_admin_list op = true -> is_generic op = false.
Proof. destruct op; intros H; try discriminate H; reflexivity. Qed.

Lemma admin_list_is_built op w :
  is_admin_list op = true -> exists config, outgoing op w = Some config.
Proof. destruct op; intros H; try discriminate H; eexists; reflexivity. Qed.

(** The message of an admin list method can be built whenever the payload
    of the response converts to a string: the status is a number or
    [undefined], and the message of the error is a string. *)
Lemma admin_text_converts prefix e :
  converts (payload_of e) = true ->
  exists detail,
    to_string (js_or (payload_of e) (VStr (error_message e))) = Some detail
    /\ admin_text prefix e
       = Some (prefix +:+ ": "
               +:+ match error_response e with
                   | Some r => number_to_string (response_status r)
                   | None => "undefined"
                   end +:+ " " +:+ detail).
Proof.
  unfold converts, admin_text, payload_of. intros H.
  assert (exists detail,
            to_string (js_or (exn_data (AxiosError e)) (VStr (error_message e))) = Some detail)
    as (detail & Hd).
  { unfold js_or. destruct (truthy (exn_data (AxiosError e))); [|cbn; eauto].
    destruct (to_string (exn_data (AxiosError e))); [eauto|discriminate H]. }
  exists detail. split; [exact Hd|]. rewrite Hd. cbn [exn_status].
  destruct (error_response e); reflexivity.
Qed.

(** *** C1: failures are normalised, except by the two generic methods *)




(** *** C2: the 401 interceptor *)

Lemma status_is_401_true e : status_is_401 e = true <-> has_status e 401.
Proof.
  unfold status_is_401, has_status. destruct (error_response e) as [r|].
  - rewrite Z.eqb_eq. split; [eauto|]. intros (r' & [= <-] & H). exact H.
  - split; [discriminate|]. intros (r' & [=] & _).
Qed.

Lemma status_is_401_false e : status_is_401 e = false <-> ~ has_status e 401.
Proof.
  rewrite <- status_is_401_true. destruct (status_is_401 e); split; congruence.
Qed.

(** C2: whichever operation made the call, a response with status 401
    removes both storage keys and assigns [/login] to the location, once;
    any other failure, and any success, leaves storage and location alone,
    and so does a call that could not send its request. *)
Theorem unauthorized_evicts_once net op w :
  let w' := snd (invoke net op w) in
  (forall config e,
     outgoing op w = Some config -> net (sent w) config = Rejected e -> has_status e 401 ->
     localStorage w' = delete "userInfo" (delete "token" (localStorage w))
     /\ localStorage w' !! "token" = None
     /\ localStorage w' !! "userInfo" = None
     /\ navigations w' = navigations w ++ ["/login"])
  /\ (forall config e,
        outgoing op w = Some config -> net (sent w) config = Rejected e ->
        ~ has_status e 401 ->
        localStorage w' = localStorage w /\ navigations w' = navigations w)
  /\ (forall config r,
        outgoing op w = Some config -> net (sent w) config = Resolved r ->
        localStorage w' = localStorage w /\ navigations w' = navigations w)
  /\ (outgoing op w = None -> w' = w).
Proof.
  cbn zeta. rewrite invoke_run. split; [|split; [|split]].
  - intros config e -> -> H%status_is_401_true. cbn [snd]. unfold after_rejection. rewrite H.
    cbn [evicted after_send localStorage navigations].
    split; [reflexivity|]. split; [|split; [|reflexivity]].
    + rewrite lookup_delete_ne by discriminate. apply lookup_delete_eq.
    + apply lookup_delete_eq.
  - intros config e -> -> H%status_is_401_false. cbn [snd]. unfold after_rejection. rewrite H.
    split; reflexivity.
  - intros config r -> ->. split; reflexivity.
  - intros ->. reflexivity.
Qed.

Lemma unauthorized_evicts_once_witness :
  let w' := snd (invoke (always (Rejected (server_error 401 (VStr "Unauthorized"))))
                   GetUserBookings signed_in_world) in
  localStorage w' = delete "userInfo" (delete "token" (localStorage signed_in_world))
  /\ localStorage w' !! "token" = None
  /\ localStorage w' !! "userInfo" = None
  /\ navigations w' = navigations signed_in_world ++ ["/login"].
Proof.
  apply (proj1 (unauthorized_evicts_once
                  (always (Rejected (server_error 401 (VStr "Unauthorized"))))
                  GetUserBookings signed_in_world)
           _ (server_error 401 (VStr "Unauthorized")) eq_refl eq_refl).
  eexists. split; reflexivity.
Defined.

(** *** C6: list operations fail with an empty list *)

(** When the transport fails, a list-returning operation returns
    [success: false], an error value, and [data] equal to the empty array:
    the four member operations always, the three admin operations when the
    payload of the response converts to a string. *)
Lemma list_failure_has_empty_data net op w config e :
  is_list op = true ->
  outgoing op w = Some config ->
  net (sent w) config = Rejected e ->
  is_admin_list op = false \/ converts (payload_of e) = true ->
  exists err,
    fst (invoke net op w)
    = Normal (Shaped {| success := false; data := Some (VArr []); error := Some err |}).
Proof.
  intros Hl Hc He Hor. rewrite invoke_run, Hc, He. cbn [fst]. unfold caught.
  destruct (is_admin_list op) eqn:Ha.
  - destruct Hor as [Hor|Hor]; [discriminate Hor|].
    rewrite (admin_list_is_not_generic op Ha).
    destruct (admin_text_converts (fallback op) e Hor) as (detail & _ & ->). eauto.
  - rewrite Hl. destruct op; try discriminate Hl; try discriminate Ha;
      cbn [is_generic]; eexists; reflexivity.
Qed.

(** C6 does not hold of the three admin list operations.  When the backend
    answers [getAllBooks()] (or [getAllUsers()], [getAllBookings()]) with
    status 500 and the JSON body [{ toString: 1 }], the template literal of
    the [catch] block throws a [TypeError] while it converts the body to a
    string, and the method raises instead of returning
    [{success: false, error, data: []}].  On the same answer
    [getAvailableBooks()] returns that result. *)
Theorem admin_list_failure_raises :
  let net := always (Rejected (server_error 500 unprintable_payload)) in
  fst (invoke net GetAllBooks fresh_world) = Throw unprintable
  /\ fst (invoke net GetAllUsers fresh_world) = Throw unprintable
  /\ fst (invoke net GetAllBookings fresh_world) = Throw unprintable
  /\ fst (invoke net GetAvailableBooks fresh_world)
     = Normal (Shaped {| success := false; data := Some (VArr []);
                         error := Some unprintable_payload |}).
Proof. repeat split; reflexivity. Qed.

(** *** C8: the Authorization header *)

Lemma with_token_held w config t :
  localStorage w !! "token" = Some t -> t <> "" ->
  headers (with_token w config) = <["Authorization" := "Bearer " +:+ t]> (headers config).
Proof.
  intros Ht Hne. unfold with_token. rewrite Ht.
  destruct t as [|c rest]; [contradiction|reflexivity].
Qed.

Lemma with_token_none w config :
  localStorage w !! "token" = None -> with_token w config = config.
Proof. intros Ht. unfold with_token. rewrite Ht. reflexivity. Qed.

Lemma with_token_empty w config :
  localStorage w !! "token" = Some "" -> with_token w config = config.
Proof. intros Ht. unfold with_token. rewrite Ht. reflexivity. Qed.

Lemma configured_headers_held w shape t :
  localStorage w !! "token" = Some t -> t <> "" ->
  headers (configured w shape) !! "Authorization" = Some ("Bearer " +:+ t).
Proof.
  intros Ht Hne. destruct shape as [[verb endpoint] payload]. unfold configured.
  rewrite (with_token_held _ _ t Ht Hne). apply lookup_insert_eq.
Qed.

Lemma configured_headers_none w shape :
  localStorage w !! "token" = None ->
  headers (configured w shape) !! "Authorization" = None.
Proof.
  intros Ht. destruct shape as [[verb endpoint] payload]. unfold configured.
  rewrite with_token_none by exact Ht. reflexivity.
Qed.

Lemma configured_headers_empty w shape :
  localStorage w !! "token" = Some "" ->
  headers (configured w shape) !! "Authorization" = None.
Proof.
  intros Ht. destruct shape as [[verb endpoint] payload]. unfold configured.
  rewrite with_token_empty by exact Ht. reflexivity.
Qed.

Lemma outgoing_headers_held op w config t :
  outgoing op w = Some config ->
  localStorage w !! "token" = Some t -> t <> "" ->
  headers config !! "Authorization" = Some ("Bearer " +:+ t).
Proof.
  unfold outgoing. destruct (wire op) as [shape|]; [|discriminate].
  intros [= <-]. apply configured_headers_held.
Qed.

Lemma outgoing_headers_none op w config :
  outgoing op w = Some config ->
  localStorage w !! "token" = None ->
  headers config !! "Authorization" = None.
Proof.
  unfold outgoing. destruct (wire op) as [shape|]; [|discriminate].
  intros [= <-]. apply configured_headers_none.
Qed.

(** C8: a call sends exactly one request, the one of [outgoing] (and none
    when its path cannot be built).  When storage holds a token (a non-empty
    string under the key [token], which is where the session manager keeps
    it) the request carries [Authorization: Bearer <token>]; when the key is
    absent the request has no [Authorization] header at all. *)
Theorem authorization_header_follows_token net op w :
  sent (snd (invoke net op w)) = sent w ++ option_list (outgoing op w)
  /\ (forall shape, wire op = Some shape ->
        exists config, sent (snd (invoke net op w)) = sent w ++ [config])
  /\ forall config,
       config ∈ option_list (outgoing op w) ->
       (forall t, localStorage w !! "token" = Some t -> t <> "" ->
          headers config !! "Authorization" = Some ("Bearer " +:+ t))
       /\ (localStorage w !! "token" = None ->
             headers config !! "Authorization" = None).
Proof.
  split; [apply invoke_sends|]. split.
  - intros shape Hshape. rewrite invoke_sends, (outgoing_built op w shape Hshape). eauto.
  - intros config Hin.
    assert (outgoing op w = Some config) as Hout.
    { destruct (outgoing op w) as [config'|]; cbn [option_list] in Hin.
      - apply list_elem_of_singleton in Hin as ->. reflexivity.
      - apply elem_of_nil in Hin as []. }
    split.
    + intros t. apply (outgoing_headers_held op); exact Hout.
    + apply (outgoing_headers_none op); exact Hout.
Qed.

(** An empty string under the key [token] counts as no token: the
    interceptor tests [if (token)]. *)
Lemma empty_token_sends_no_header op w config :
  outgoing op w = Some config ->
  localStorage w !! "token" = Some "" ->
  headers config !! "Authorization" = None.
Proof.
  unfold outgoing. destruct (wire op) as [shape|]; [|discriminate].
  intros [= <-]. apply configured_headers_empty.
Qed.

Lemma authorization_header_follows_token_witness :
  exists config,
    sent (snd (invoke (always (Rejected timeout_error)) GetActiveBookings signed_in_world))
    = sent signed_in_world ++ [config]
    /\ headers config !! "Authorization" = Some "Bearer t0".
Proof.
  destruct (authorization_header_follows_token (always (Rejected timeout_error))
              GetActiveBookings signed_in_world) as (Hsent & _ & Hheaders).
  exists (configured signed_in_world ("get", "/api/user/bookings/active", VUndefined)).
  split; [exact Hsent|].
  apply (proj1 (Hheaders _ (list_elem_of_here _ _)) "t0"); [reflexivity|discriminate].
Defined.

(** *** C9: what the error field holds *)

(** C9, as stated, fails for the admin list operations: they wrap the
    status and the payload in a message of their own, and an object payload
    is printed as [[object Object]]. *)
Lemma admin_list_error_is_wrapped :
  let payload := VObj [("message", VStr "Database unavailable")] in
  fst (invoke (always (Rejected (server_error 500 payload))) GetAllBooks fresh_world)
  = Normal (Shaped {| success := false;
                      data := Some (VArr []);
                      error := Some (VStr "Failed to fetch all books: 500 [object Object]") |})
  /\ VStr "Failed to fetch all books: 500 [object Object]" <> payload.
Proof. split; [reflexivity|discriminate]. Qed.

(** C9 (amended): for a failure response whose payload is truthy (any
    object or array, any non-empty string), every endpoint method other than
    the three admin list operations returns the payload itself as [error];
    list all books, list all users and list all bookings return instead,
    when the payload converts to a string, the string
    [<prefix>: <status> <payload as a string>]. *)
Theorem server_payload_in_error net op w config e r :
  outgoing op w = Some config ->
  net (sent w) config = Rejected e ->
  error_response e = Some r ->
  truthy (response_data r) = true ->
  (is_generic op = false -> is_admin_list op = false ->
     exists d,
       fst (invoke net op w)
       = Normal (Shaped {| success := false; data := d; error := Some (response_data r) |}))
  /\ (is_admin_list op = true ->
        forall detail, to_string (response_data r) = Some detail ->
        fst (invoke net op w)
        = Normal (Shaped {| success := false;
                            data := Some (VArr []);
                            error := Some (VStr (fallback op +:+ ": "
                                                 +:+ number_to_string (response_status r)
                                                 +:+ " " +:+ detail)) |})).
Proof.
  intros Hc He Hr Ht. rewrite invoke_run, Hc, He. cbn [fst]. unfold caught. split.
  - intros -> ->. destruct (is_list op); eexists.
    + unfold failed_list, exn_data. rewrite Hr, js_or_left by exact Ht. reflexivity.
    + unfold failed, exn_data. rewrite Hr, js_or_left by exact Ht. reflexivity.
  - intros Ha detail Hd. rewrite Ha, (admin_list_is_not_generic op Ha).
    unfold admin_text, exn_data, exn_status. rewrite Hr, js_or_left by exact Ht.
    cbn [to_string]. rewrite Hd. reflexivity.
Qed.

Lemma server_payload_in_error_witness :
  let payload := VObj [("message", VStr "Book is not available")] in
  (exists d,
     fst (invoke (always (Rejected (server_error 409 payload))) (BookBook (VNum 7)) fresh_world)
     = Normal (Shaped {| success := false; data := d; error := Some payload |}))
  /\ fst (invoke (always (Rejected (server_error 403 (VStr "Forbidden")))) GetAllUsers fresh_world)
     = Normal (Shaped {| success := false;
                         data := Some (VArr []);
                         error := Some (VStr "Failed to fetch users: 403 Forbidden") |}).
Proof.
  split.
  - exact (proj1 (server_payload_in_error
                    (always (Rejected (server_error 409 (VObj [("message", VStr "Book is not available")]))))
                    (BookBook (VNum 7)) fresh_world _ _ _ eq_refl eq_refl eq_refl eq_refl)
             eq_refl eq_refl).
  - exact (proj2 (server_payload_in_error
                    (always (Rejected (server_error 403 (VStr "Forbidden"))))
                    GetAllUsers fresh_world _ _ _ eq_refl eq_refl eq_refl eq_refl)
             eq_refl "Forbidden" eq_refl).
Defined.

(** *** The session manager: [login] in closed form *)

Lemma gateway_login_run net credentials w :
  APIService.login net credentials w =
  let config := login_request credentials w in
  match net (sent w) config with
  | Resolved r => (Normal (succeeded r), after_send config w)
  | Rejected e =>
      (Normal (failed "Login failed" (AxiosError e)), after_rejection e (after_send config w))
  end.
Proof. unfold APIService.login, api.post. rewrite guarded_run. reflexivity. Qed.

(** [login] stores the token only if it converts to a string: [setItem]
    throws otherwise, before anything is written, and the [catch] block
    answers. *)
Lemma login_run net username password s w :
  let config := login_request (credentials_of username password) w in
  AuthProvider.login net username password (s, w) =
  match net (sent w) config with
  | Rejected e =>
      (Normal (failed "Login failed" (AxiosError e)),
       (stopped_loading s, after_rejection e (after_send config w)))
  | Resolved r =>
      match response_data r with
      | VUndefined | VNull =>
          (Normal login_unexpected, (stopped_loading s, after_send config w))
      | _ =>
          match to_string (prop (response_data r) "token") with
          | Some text =>
              (Normal login_succeeded,
               ({| currentUser := user_info_of (response_data r);
                   token := prop (response_data r) "token";
                   loading := false |},
                {| localStorage := signed_in_storage text (response_data r) (localStorage w);
                   navigations := navigations w;
                   sent := sent w ++ [config] |}))
          | None => (Normal login_unexpected, (stopped_loading s, after_send config w))
          end
      end
  end.
Proof.
  cbn zeta. unfold AuthProvider.login.
  unfold bind at 1. unfold AuthProvider.setLoading at 1. cbn [fst snd].
  unfold try_finally, try_catch. unfold bind at 1. unfold AuthProvider.outside at 1.
  cbn [fst snd]. fold (credentials_of username password).
  rewrite gateway_login_run. cbn zeta.
  destruct (net (sent w) _) as [r|e]; [|reflexivity].
  cbn [success succeeded data field]. unfold bind at 1.
  destruct (response_data r) eqn:Hd; try reflexivity.
  cbn [require_object_coercible]. unfold ret at 1. cbn iota.
  unfold bind at 1. unfold AuthProvider.outside at 1. cbn [snd fst].
  unfold setItem at 1. unfold bind at 1. unfold text_of at 1.
  destruct (to_string (prop (VObj fields) "token")); reflexivity.
Qed.

(** *** C3: a successful login *)

(** C3: when the gateway's login returns
    [{success: true, data: {token: t1, username: alice, role: ROLE_USER}}],
    [login(alice, secret)] returns [{success: true}]; afterwards storage
    holds [token = t1] and the JSON text of [{username, role}] under
    [userInfo], the state cells hold the same token and user, [loading] is
    cleared, [isUser()] is true and [isAdmin()] is false. *)
Theorem login_scenario_A net s w :
  fst (APIService.login net (credentials_of (VStr "alice") (VStr "secret")) w)
  = Normal {| success := true; data := Some alice_payload; error := None |} ->
  let out := AuthProvider.login net (VStr "alice") (VStr "secret") (s, w) in
  let s' := fst (snd out) in
  let w' := snd (snd out) in
  fst out = Normal {| success := true; data := None; error := None |}
  /\ localStorage w' !! "token" = Some "t1"
  /\ localStorage w' !! "userInfo" = Some alice_user_info
  /\ token s' = VStr "t1"
  /\ currentUser s' = user_value "alice" USER
  /\ loading s' = false
  /\ AuthProvider.isUser s' = true
  /\ AuthProvider.isAdmin s' = false
  /\ AuthProvider.isLoggedIn s' = true.
Proof.
  intros Hgw. cbn zeta. rewrite login_run. cbn zeta.
  rewrite gateway_login_run in Hgw. cbn zeta in Hgw.
  destruct (net (sent w) _) as [r|e]; cbn [fst] in Hgw; [|discriminate Hgw].
  injection Hgw as Hd. rewrite Hd. cbn [alice_payload fst snd prop lookup_field String.eqb
    Ascii.eqb Bool.eqb to_string].
  split; [reflexivity|]. split; [|split].
  - cbn [localStorage]. unfold signed_in_storage.
    rewrite lookup_insert_ne by discriminate. apply lookup_insert_eq.
  - cbn [localStorage]. unfold signed_in_storage. apply lookup_insert_eq.
  - repeat split; reflexivity.
Qed.

Lemma login_scenario_A_witness :
  let net := always (Resolved {| response_status := 200; response_data := alice_payload |}) in
  let out := AuthProvider.login net (VStr "alice") (VStr "secret")
               (anonymous_session, fresh_world) in
  let s' := fst (snd out) in
  let w' := snd (snd out) in
  fst out = Normal {| success := true; data := None; error := None |}
  /\ localStorage w' !! "token" = Some "t1"
  /\ localStorage w' !! "userInfo" = Some alice_user_info
  /\ token s' = VStr "t1"
  /\ currentUser s' = user_value "alice" USER
  /\ loading s' = false
  /\ AuthProvider.isUser s' = true
  /\ AuthProvider.isAdmin s' = false
  /\ AuthProvider.isLoggedIn s' = true.
Proof.
  apply (login_scenario_A
           (always (Resolved {| response_status := 200; response_data := alice_payload |}))
           anonymous_session fresh_world).
  reflexivity.
Defined.

(** *** Hydration in closed form *)

Lemma initializeAuth_run JSON_parse s w :
  AuthProvider.initializeAuth JSON_parse (s, w) =
  if truthy (token s) then
    match localStorage w !! "userInfo" with
    | Some (String c rest) =>
        match JSON_parse (String c rest) with
        | Some parsedUser =>
            (Normal tt,
             ({| currentUser := parsedUser; token := token s; loading := false |}, w))
        | None =>
            (Normal tt,
             ({| currentUser := VNull; token := VNull; loading := false |},
              {| localStorage := delete "userInfo" (delete "token" (localStorage w));
                 navigations := navigations w;
                 sent := sent w |}))
        end
    | _ => (Normal tt, (stopped_loading s, w))
    end
  else (Normal tt, (stopped_loading s, w)).
Proof.
  unfold AuthProvider.initializeAuth.
  unfold bind at 1. unfold bind at 1. unfold AuthProvider.read at 1. cbn [fst snd].
  destruct (truthy (token s)); [|reflexivity].
  unfold bind at 1. unfold AuthProvider.outside at 1. unfold getItem at 1. cbn [fst snd].
  destruct (localStorage w !! "userInfo") as [[|c rest]|]; cbn [truthy]; try reflexivity.
  unfold AuthProvider.parse, text_of. cbn [to_string]. unfold try_catch, bind, ret.
  destruct (JSON_parse (String c rest)); reflexivity.
Qed.

(** The effect that follows the change of [token] parses what [login]
    stored and finds the same user. *)
Lemma effect_after_sign_in JSON_parse net s w :
  JSON_parse alice_user_info = Some (user_value "alice" USER) ->
  fst (APIService.login net (credentials_of (VStr "alice") (VStr "secret")) w)
  = Normal {| success := true; data := Some alice_payload; error := None |} ->
  let st' := snd (AuthProvider.login net (VStr "alice") (VStr "secret") (s, w)) in
  AuthProvider.initializeAuth JSON_parse st' = (Normal tt, st').
Proof.
  intros Hparse Hgw. cbn zeta. rewrite login_run. cbn zeta.
  rewrite gateway_login_run in Hgw. cbn zeta in Hgw.
  destruct (net (sent w) _) as [r|e]; cbn [fst] in Hgw; [|discriminate Hgw].
  injection Hgw as Hd. rewrite Hd. cbn [alice_payload snd prop lookup_field String.eqb
    Ascii.eqb Bool.eqb to_string].
  rewrite initializeAuth_run. cbn [token localStorage].
  unfold signed_in_storage at 1. rewrite lookup_insert_eq.
  change (user_info_text _) with alice_user_info.
  change (truthy _) with true. cbn iota.
  assert (exists c rest, alice_user_info = String c rest) as (c & rest & Htext)
    by (eexists _, _; reflexivity).
  rewrite Htext. rewrite <- Htext, Hparse. reflexivity.
Qed.

(** *** C4: a failed login *)

(** C4, as stated, fails when the failure is a 401: the response
    interceptor has removed both storage keys by the time [login] returns
    the gateway's failure result. *)
Lemma login_unauthorized_clears_storage :
  let net := always (Rejected (server_error 401 (VStr "Bad credentials"))) in
  let failure := {| success := false; data := None; error := Some (VStr "Bad credentials") |} in
  let out := AuthProvider.login net (VStr "bob") (VStr "wrong")
               (signed_in_session, signed_in_world) in
  fst (APIService.login net (credentials_of (VStr "bob") (VStr "wrong")) signed_in_world)
  = Normal failure
  /\ fst out = Normal failure
  /\ localStorage signed_in_world !! "token" = Some "t0"
  /\ localStorage (snd (snd out)) !! "token" = None
  /\ localStorage (snd (snd out)) !! "userInfo" = None.
Proof. repeat split; reflexivity. Qed.

(** C4 (amended): [login] never raises and always clears [loading].  When
    the gateway's login fails, [login] returns the gateway's failure result
    as it is and leaves [token] and [currentUser] unchanged; storage is
    unchanged too unless the response had status 401, in which case the
    gateway's interceptor has removed both keys.  When the exception of a
    missing response payload, or of a token that does not convert to a
    string for storage, is caught, [login] returns the fixed message and
    leaves storage and both state cells unchanged. *)
Theorem login_failure net username password s w :
  let config := login_request (credentials_of username password) w in
  let out := AuthProvider.login net username password (s, w) in
  let s' := fst (snd out) in
  let w' := snd (snd out) in
  ((exists r, fst out = Normal r) /\ loading s' = false)
  /\ (forall failure,
        fst (APIService.login net (credentials_of username password) w) = Normal failure ->
        success failure = false ->
        fst out = Normal failure
        /\ token s' = token s
        /\ currentUser s' = currentUser s
        /\ exists e,
             net (sent w) config = Rejected e
             /\ (~ has_status e 401 -> localStorage w' = localStorage w)
             /\ (has_status e 401 ->
                   localStorage w' = delete "userInfo" (delete "token" (localStorage w))))
  /\ (forall r,
        net (sent w) config = Resolved r ->
        absent (response_data r) ->
        fst out = Normal {| success := false; data := None;
                            error := Some (VStr "An unexpected error occurred during login") |}
        /\ token s' = token s
        /\ currentUser s' = currentUser s
        /\ localStorage w' = localStorage w)
  /\ (forall r,
        net (sent w) config = Resolved r ->
        ~ absent (response_data r) ->
        to_string (prop (response_data r) "token") = None ->
        fst out = Normal {| success := false; data := None;
                            error := Some (VStr "An unexpected error occurred during login") |}
        /\ token s' = token s
        /\ currentUser s' = currentUser s
        /\ localStorage w' = localStorage w).
Proof.
  cbn zeta. rewrite login_run, gateway_login_run. cbn zeta.
  destruct (net (sent w) _) as [r|e]; cbn [fst snd].
  - split; [|split; [|split]].
    + destruct (response_data r); try (cbn [fst snd loading stopped_loading]; eauto; fail);
        destruct (to_string _); cbn [fst snd loading stopped_loading]; eauto.
    + intros failure [= <-] H. discriminate H.
    + intros r' [= <-] [Hd|Hd]; rewrite Hd; repeat split; reflexivity.
    + intros r' [= <-] Hpresent Hnone.
      destruct (response_data r) eqn:Hd;
        try (exfalso; apply Hpresent; unfold absent; auto; fail);
        rewrite Hnone; repeat split; reflexivity.
  - split; [|split; [|split]].
    + eauto.
    + intros failure [= <-] _. repeat split. exists e. split; [reflexivity|].
      unfold after_rejection. split.
      * intros H%status_is_401_false. rewrite H. reflexivity.
      * intros H%status_is_401_true. rewrite H. reflexivity.
    + intros r [=].
    + intros r [=].
Qed.

Lemma login_failure_witness :
  let net := always (Rejected (server_error 403 (VStr "Account locked"))) in
  let failure := {| success := false; data := None; error := Some (VStr "Account locked") |} in
  let out := AuthProvider.login net (VStr "bob") (VStr "pw")
               (signed_in_session, signed_in_world) in
  (fst out = Normal failure
   /\ token (fst (snd out)) = token signed_in_session
   /\ currentUser (fst (snd out)) = currentUser signed_in_session
   /\ exists e,
        net (sent signed_in_world)
          (login_request (credentials_of (VStr "bob") (VStr "pw")) signed_in_world)
        = Rejected e
        /\ (~ has_status e 401 ->
              localStorage (snd (snd out)) = localStorage signed_in_world)
        /\ (has_status e 401 ->
              localStorage (snd (snd out))
              = delete "userInfo" (delete "token" (localStorage signed_in_world))))
  /\ let out0 := AuthProvider.login
                   (always (Resolved {| response_status := 200; response_data := VNull |}))
                   (VStr "bob") (VStr "pw") (signed_in_session, signed_in_world) in
     fst out0 = Normal {| success := false; data := None;
                          error := Some (VStr "An unexpected error occurred during login") |}
     /\ token (fst (snd out0)) = token signed_in_session
     /\ currentUser (fst (snd out0)) = currentUser signed_in_session
     /\ localStorage (snd (snd out0)) = localStorage signed_in_world.
Proof.
  split.
  - apply (proj1 (proj2 (login_failure
                           (always (Rejected (server_error 403 (VStr "Account locked"))))
                           (VStr "bob") (VStr "pw") signed_in_session signed_in_world)));
      reflexivity.
  - apply (proj1 (proj2 (proj2 (login_failure
                           (always (Resolved {| response_status := 200;
                                                response_data := VNull |}))
                           (VStr "bob") (VStr "pw") signed_in_session signed_in_world)))
             {| response_status := 200; response_data := VNull |});
      [reflexivity|left; reflexivity].
Defined.

(** *** C5: logout *)

Lemma logout_run s w :
  AuthProvider.logout (s, w) =
  (Normal tt,
   ({| currentUser := VNull; token := VNull; loading := loading s |},
    {| localStorage := delete "userInfo" (delete "token" (localStorage w));
       navigations := navigations w;
       sent := sent w |})).
Proof. reflexivity. Qed.

(** C5: from any state, [logout] completes without an error, leaves both
    storage keys absent and both state cells [null], and sends no request
    (nor navigates).  From a logged-out state it changes nothing, and a
    second [logout] changes nothing after the first. *)
Theorem logout_total_idempotent st :
  let out := AuthProvider.logout st in
  fst out = Normal tt
  /\ logged_out (snd out)
  /\ sent (snd (snd out)) = sent (snd st)
  /\ navigations (snd (snd out)) = navigations (snd st)
  /\ (logged_out st -> out = (Normal tt, st))
  /\ AuthProvider.logout (snd out) = out.
Proof.
  assert (Hnoop : forall st0, logged_out st0 -> AuthProvider.logout st0 = (Normal tt, st0)).
  { intros [[cu tk ld] [storage nav reqs]] (Ht & Hu & Htk & Hcu).
    cbn [fst snd localStorage token currentUser] in *. subst cu tk.
    rewrite logout_run. cbn [localStorage navigations sent loading].
    rewrite (delete_id storage "token") by exact Ht.
    rewrite (delete_id storage "userInfo") by exact Hu. reflexivity. }
  assert (Hout : logged_out (snd (AuthProvider.logout st))).
  { destruct st as [s w]. rewrite logout_run. unfold logged_out.
    cbn [fst snd localStorage token currentUser].
    rewrite lookup_delete_ne by discriminate. rewrite !lookup_delete_eq. auto. }
  cbn zeta. split; [destruct st; reflexivity|]. split; [exact Hout|].
  split; [destruct st; reflexivity|]. split; [destruct st; reflexivity|].
  split; [apply Hnoop|].
  rewrite (Hnoop _ Hout). destruct st; reflexivity.
Qed.

Lemma logout_total_idempotent_witness :
  AuthProvider.logout (anonymous_session, fresh_world)
  = (Normal tt, (anonymous_session, fresh_world)).
Proof.
  apply (proj1 (proj2 (proj2 (proj2 (proj2
           (logout_total_idempotent (anonymous_session, fresh_world))))))).
  repeat split; reflexivity.
Defined.

(** *** C7: the role predicates *)

Lemma strict_eq_str_true v lit : strict_eq_str v lit = true <-> v = VStr lit.
Proof.
  destruct v; cbn; try (split; [discriminate|intros [=]]).
  rewrite String.eqb_eq. split; [intros ->; reflexivity|intros [= ->]; reflexivity].
Qed.

Lemma opt_prop_role v lit :
  opt_prop v "role" = VStr lit <-> ~ absent v /\ prop v "role" = VStr lit.
Proof.
  unfold absent. destruct v; cbn [opt_prop].
  1,2: split; [discriminate|intros [H _]; exfalso; apply H; auto].
  all: split; [intros H; split; [intros [?|?]; discriminate|exact H]|intros [_ H]; exact H].
Qed.

Lemma absent_not_truthy v : absent v -> truthy v = false.
Proof. intros [->| ->]; reflexivity. Qed.

Lemma token_present_truthy v : token_present v -> truthy v = true /\ v <> VNull.
Proof.
  intros (t & -> & Hne). split; [|discriminate].
  destruct t; [contradiction|reflexivity].
Qed.

Lemma user_present_truthy v : user_present v -> truthy v = true /\ v <> VNull.
Proof. intros (name & r & ->). split; [reflexivity|discriminate]. Qed.

(** C7: [isAdmin()] holds exactly when [currentUser] is present and its
    role is ADMIN (the string [ROLE_ADMIN]), [isUser()] exactly when it is
    present and its role is USER ([ROLE_USER]); for a user of the data model
    they decide the role.  [isLoggedIn()] holds exactly when both [token]
    and [currentUser] pass the truth test, never when either is absent, and
    on the session states of the data model exactly when both are present.
    Evaluating a predicate changes neither the session nor the world. *)
Theorem role_predicates s :
  (AuthProvider.isAdmin s = true
   <-> ~ absent (currentUser s) /\ prop (currentUser s) "role" = VStr (role_string ADMIN))
  /\ (AuthProvider.isUser s = true
      <-> ~ absent (currentUser s) /\ prop (currentUser s) "role" = VStr (role_string USER))
  /\ (forall name r, currentUser s = user_value name r ->
        (AuthProvider.isAdmin s = true <-> r = ADMIN)
        /\ (AuthProvider.isUser s = true <-> r = USER))
  /\ (AuthProvider.isLoggedIn s = true
      <-> truthy (token s) = true /\ truthy (currentUser s) = true)
  /\ (absent (token s) \/ absent (currentUser s) -> AuthProvider.isLoggedIn s = false)
  /\ (in_data_model s ->
        (AuthProvider.isLoggedIn s = true
         <-> token_present (token s) /\ user_present (currentUser s))
        /\ (AuthProvider.isLoggedIn s = true
            <-> token s <> VNull /\ currentUser s <> VNull))
  /\ (forall w,
        AuthProvider.read AuthProvider.isAdmin (s, w) = (Normal (AuthProvider.isAdmin s), (s, w))
        /\ AuthProvider.read AuthProvider.isUser (s, w) = (Normal (AuthProvider.isUser s), (s, w))
        /\ AuthProvider.read AuthProvider.isLoggedIn (s, w)
           = (Normal (AuthProvider.isLoggedIn s), (s, w))).
Proof.
  assert (Hlog : AuthProvider.isLoggedIn s = true
                 <-> truthy (token s) = true /\ truthy (currentUser s) = true).
  { unfold AuthProvider.isLoggedIn. rewrite !negb_involutive. apply andb_true_iff. }
  split; [|split; [|split; [|split; [|split; [|split]]]]].
  - unfold AuthProvider.isAdmin. rewrite strict_eq_str_true. apply opt_prop_role.
  - unfold AuthProvider.isUser. rewrite strict_eq_str_true. apply opt_prop_role.
  - intros name r Hcu. unfold AuthProvider.isAdmin, AuthProvider.isUser. rewrite Hcu.
    destruct r; cbn; split; split; congruence.
  - exact Hlog.
  - intros H. apply not_true_is_false. rewrite Hlog. intros [Ht Hu].
    destruct H as [H|H]; apply absent_not_truthy in H; congruence.
  - intros [Htk Hcu]. rewrite Hlog. split; split.
    + intros [Ht Hu]. split.
      * destruct Htk as [Htk|Htk]; [rewrite Htk in Ht; discriminate Ht|exact Htk].
      * destruct Hcu as [Hcu|Hcu]; [rewrite Hcu in Hu; discriminate Hu|exact Hcu].
    + intros [Ht Hu]. split; [apply token_present_truthy, Ht|apply user_present_truthy, Hu].
    + intros [Ht Hu]. split.
      * intros E. rewrite E in Ht. discriminate Ht.
      * intros E. rewrite E in Hu. discriminate Hu.
    + intros [Ht Hu]. split.
      * destruct Htk as [Htk|Htk]; [contradiction|apply token_present_truthy, Htk].
      * destruct Hcu as [Hcu|Hcu]; [contradiction|apply user_present_truthy, Hcu].
  - intros w. repeat split.
Qed.

Lemma role_predicates_witness :
  (AuthProvider.isAdmin signed_in_session = true <-> USER = ADMIN)
  /\ (AuthProvider.isUser signed_in_session = true <-> USER = USER)
  /\ AuthProvider.isLoggedIn
       {| currentUser := VNull; token := VStr "t0"; loading := false |} = false
  /\ (AuthProvider.isLoggedIn signed_in_session = true
      <-> token signed_in_session <> VNull /\ currentUser signed_in_session <> VNull).
Proof.
  split; [|split; [|split]].
  - apply (proj1 (proj2 (proj2 (role_predicates signed_in_session))) "bob" USER eq_refl).
  - apply (proj1 (proj2 (proj2 (role_predicates signed_in_session))) "bob" USER eq_refl).
  - apply (proj1 (proj2 (proj2 (proj2 (proj2
             (role_predicates {| currentUser := VNull; token := VStr "t0";
                                 loading := false |})))))).
    right. left. reflexivity.
  - apply (proj1 (proj2 (proj2 (proj2 (proj2 (proj2
             (role_predicates signed_in_session))))))).
    split; right.
    + exists "t0". split; [reflexivity|discriminate].
    + exists "bob", USER. reflexivity.
Defined.

(** With an empty string as token the session is not logged in: the test
    is [!!token]. *)
Lemma empty_token_is_not_logged_in cu ld :
  AuthProvider.isLoggedIn {| currentUser := cu; token := VStr ""; loading := ld |} = false.
Proof. reflexivity. Qed.


(** *** C10: a token without user information *)

Lemma invoke_keeps_storage net op w :
  never_unauthorized net -> localStorage (snd (invoke net op w)) = localStorage w.
Proof.
  intros Hnet. rewrite invoke_run. destruct (outgoing op w) as [config|]; [|reflexivity].
  destruct (net (sent w) config) as [r|e] eqn:He; [reflexivity|].
  cbn [snd]. unfold after_rejection. rewrite (Hnet _ _ _ He). reflexivity.
Qed.

Lemma shape_of_configured w shape : shape_of (configured w shape) = shape.
Proof.
  destruct shape as [[verb endpoint] payload]. unfold configured, shape_of, with_token.
  destruct (localStorage w !! "token") as [[|c rest]|]; reflexivity.
Qed.

Lemma outgoing_shape op w : shape_of <$> outgoing op w = wire op.
Proof.
  unfold outgoing. destruct (wire op) as [shape|]; [|reflexivity].
  cbn. rewrite shape_of_configured. reflexivity.
Qed.

Lemma option_list_length {A B} (f : A -> B) (o : option A) :
  length (option_list o) = length (option_list (f <$> o)).
Proof. destruct o; reflexivity. Qed.

Lemma invoke_all_carries_token net ops :
  never_unauthorized net ->
  forall w t,
    localStorage w !! "token" = Some t -> t <> "" ->
    exists new,
      sent (invoke_all net ops w) = sent w ++ new
      /\ length new = length (omap wire ops)
      /\ Forall (fun config => headers config !! "Authorization" = Some ("Bearer " +:+ t)) new.
Proof.
  intros Hnet. induction ops as [|op rest IH]; intros w t Ht Hne; cbn [invoke_all].
  - exists []. rewrite app_nil_r. auto.
  - destruct (IH (snd (invoke net op w)) t) as (new & Hsent & Hlen & Hall).
    + rewrite invoke_keeps_storage by exact Hnet. exact Ht.
    + exact Hne.
    + exists (option_list (outgoing op w) ++ new). rewrite Hsent, invoke_sends, <- app_assoc.
      split; [reflexivity|]. cbn [omap list_omap]. rewrite <- (outgoing_shape op w).
      destruct (outgoing op w) as [config|] eqn:Hout; cbn [option_list app fmap option_fmap option_map].
      * split; [cbn; congruence|].
        constructor; [apply (outgoing_headers_held op w); assumption|exact Hall].
      * split; [exact Hlen|exact Hall].
Qed.

(** C10, as stated, fails: the stale token is not attached to every later
    request.  After a page load with a token and no user information, a call
    that is answered 401 makes the interceptor remove the token, and the
    request of the next call carries no [Authorization] header. *)
Lemma stale_token_is_dropped_after_401 :
  let net := always (Rejected (server_error 401 (VStr "Token expired"))) in
  let out := reload (fun _ => None) orphan_world in
  let w2 := invoke_all net [GetUserBookings; GetAvailableBooks] (snd (snd out)) in
  fst out = Normal tt
  /\ snd (snd out) = orphan_world
  /\ token (fst (snd out)) = VStr "t0"
  /\ AuthProvider.isLoggedIn (fst (snd out)) = false
  /\ exists first second,
       sent w2 = [first; second]
       /\ headers first !! "Authorization" = Some "Bearer t0"
       /\ headers second !! "Authorization" = None.
Proof.
  cbn zeta. repeat (split; [reflexivity|]).
  eexists _, _. split; [reflexivity|]. split; reflexivity.
Qed.

(** C10 (amended): hydration with a token (a non-empty string) under
    [token] and nothing under [userInfo] tears nothing down: the world is
    untouched, the token stays in the state, [currentUser] stays [null] and
    [isLoggedIn()] is false; the request of the next call, whichever
    operation makes it, and every request of any sequence of calls that meets
    no 401, carries [Authorization: Bearer <token>]. *)
Theorem hydration_keeps_orphan_token JSON_parse w t :
  localStorage w !! "token" = Some t ->
  t <> "" ->
  localStorage w !! "userInfo" = None ->
  let out := AuthProvider.initializeAuth JSON_parse (AuthProvider.mount w) in
  let s' := fst (snd out) in
  fst out = Normal tt
  /\ snd (snd out) = w
  /\ token s' = VStr t
  /\ currentUser s' = VNull
  /\ loading s' = false
  /\ AuthProvider.isLoggedIn s' = false
  /\ (forall net op config,
        outgoing op w = Some config ->
        sent (snd (invoke net op (snd (snd out)))) = sent w ++ [config]
        /\ headers config !! "Authorization" = Some ("Bearer " +:+ t))
  /\ (forall net ops,
        never_unauthorized net ->
        exists new,
          sent (invoke_all net ops (snd (snd out))) = sent w ++ new
          /\ length new = length (omap wire ops)
          /\ Forall (fun config =>
                       headers config !! "Authorization" = Some ("Bearer " +:+ t)) new).
Proof.
  intros Ht Hne Hu. cbn zeta. unfold AuthProvider.mount.
  rewrite initializeAuth_run, Ht, Hu. cbn [token].
  destruct t as [|c rest]; [contradiction|]. cbn [truthy fst snd stopped_loading token currentUser loading].
  repeat (split; [reflexivity|]). split.
  - intros net op config Hout. split.
    + rewrite invoke_sends, Hout. reflexivity.
    + apply (outgoing_headers_held op w); assumption.
  - intros net ops Hnet. apply invoke_all_carries_token; assumption.
Qed.

Lemma hydration_keeps_orphan_token_witness :
  let net := always (Rejected (server_error 500 (VStr "Internal Server Error"))) in
  let out := AuthProvider.initializeAuth (fun _ => None) (AuthProvider.mount orphan_world) in
  let s' := fst (snd out) in
  fst out = Normal tt
  /\ snd (snd out) = orphan_world
  /\ token s' = VStr "t0"
  /\ currentUser s' = VNull
  /\ loading s' = false
  /\ AuthProvider.isLoggedIn s' = false
  /\ (exists config,
        sent (snd (invoke net GetAvailableBooks (snd (snd out)))) = sent orphan_world ++ [config]
        /\ headers config !! "Authorization" = Some "Bearer t0")
  /\ (exists new,
        sent (invoke_all net [GetAvailableBooks; GetUserBookings] (snd (snd out)))
        = sent orphan_world ++ new
        /\ length new = 2%nat
        /\ Forall (fun config => headers config !! "Authorization" = Some "Bearer t0") new).
Proof.
  destruct (hydration_keeps_orphan_token (fun _ => None) orphan_world "t0")
    as (H1 & H2 & H3 & H4 & H5 & H6 & H7 & H8);
    [reflexivity|discriminate|reflexivity|].
  cbn zeta. repeat (split; [assumption|]). split.
  - eexists. apply (H7 _ GetAvailableBooks). reflexivity.
  - apply H8. intros history config e [= <-]. reflexivity.
Defined.

(** *** The token in the state and the token in storage *)

Lemma mount_in_step w : in_step (AuthProvider.mount w).
Proof. reflexivity. Qed.

Lemma logout_in_step st : in_step (snd (AuthProvider.logout st)).
Proof.
  destruct st as [s w]. rewrite logout_run. unfold in_step.
  cbn [fst snd token localStorage].
  rewrite lookup_delete_ne by discriminate. rewrite lookup_delete_eq. reflexivity.
Qed.

Lemma login_in_step net username password s w r t :
  net (sent w) (login_request (credentials_of username password) w) = Resolved r ->
  prop (response_data r) "token" = VStr t ->
  in_step (snd (AuthProvider.login net username password (s, w))).
Proof.
  intros Hnet Ht. rewrite login_run. cbn zeta. rewrite Hnet, Ht.
  destruct (response_data r) eqn:Hd; try discriminate Ht.
  unfold in_step. cbn [fst snd token localStorage to_string]. unfold signed_in_storage.
  rewrite lookup_insert_ne by discriminate. rewrite lookup_insert_eq. reflexivity.
Qed.

(** While state and storage are in step, the header follows the token the
    session manager holds. *)
Lemma authorization_header_follows_session net op s w config :
  in_step (s, w) ->
  outgoing op w = Some config ->
  (forall t, holds_token (token s) t ->
     headers config !! "Authorization" = Some ("Bearer " +:+ t))
  /\ (token s = VNull -> headers config !! "Authorization" = None)
  /\ sent (snd (invoke net op w)) = sent w ++ [config].
Proof.
  unfold in_step. cbn [fst snd]. intros Hstep Hout. split; [|split].
  - intros t [Ht Hne]. rewrite Ht in Hstep.
    destruct (localStorage w !! "token") as [t'|] eqn:Hw; [|discriminate Hstep].
    injection Hstep as ->. apply (outgoing_headers_held op w); assumption.
  - intros Ht. rewrite Ht in Hstep.
    destruct (localStorage w !! "token") as [t'|] eqn:Hw; [discriminate Hstep|].
    apply (outgoing_headers_none op w); assumption.
  - rewrite invoke_sends, Hout. reflexivity.
Qed.

(** ** Further properties of the gateway *)

(** X1: when the backend fulfils the request, an endpoint method returns
    [{success: true, data: <body>}] with no [error] key, whatever the body
    is; a generic method returns the response itself. *)
Theorem fulfilled_response_is_returned net op w config r :
  outgoing op w = Some config ->
  net (sent w) config = Resolved r ->
  (is_generic op = false ->
     fst (invoke net op w)
     = Normal (Shaped {| success := true; data := Some (response_data r); error := None |}))
  /\ (is_generic op = true -> fst (invoke net op w) = Normal (RawResponse r)).
Proof.
  intros Hout Hnet. rewrite invoke_run, Hout, Hnet. cbn [fst]. unfold fulfilled.
  split; intros ->; reflexivity.
Qed.

Lemma fulfilled_response_is_returned_witness :
  fst (invoke (always (Resolved {| response_status := 204; response_data := VStr "" |}))
         (DeleteBook (VNum 3)) fresh_world)
  = Normal (Shaped {| success := true; data := Some (VStr ""); error := None |})
  /\ fst (invoke (always (Resolved {| response_status := 200; response_data := VNull |}))
            (Get "/api/user/books/7") fresh_world)
     = Normal (RawResponse {| response_status := 200; response_data := VNull |}).
Proof.
  split.
  - exact (proj1 (fulfilled_response_is_returned
                    (always (Resolved {| response_status := 204; response_data := VStr "" |}))
                    (DeleteBook (VNum 3)) fresh_world _ _ eq_refl eq_refl) eq_refl).
  - exact (proj2 (fulfilled_response_is_returned
                    (always (Resolved {| response_status := 200; response_data := VNull |}))
                    (Get "/api/user/books/7") fresh_world _ _ eq_refl eq_refl) eq_refl).
Defined.

(** X2: when the failure carries no payload the code can show (no
    response at all, or a falsy body such as the empty string), an endpoint
    method other than the admin list operations answers with its own fixed,
    non-empty message. *)
Theorem failure_without_payload_uses_fallback net op w config e :
  is_generic op = false ->
  is_admin_list op = false ->
  outgoing op w = Some config ->
  net (sent w) config = Rejected e ->
  truthy (payload_of e) = false ->
  fallback op <> ""
  /\ exists d,
       fst (invoke net op w)
       = Normal (Shaped {| success := false; data := d; error := Some (VStr (fallback op)) |}).
Proof.
  intros Hg Ha Hout Hnet Hp. split.
  - destruct op; try discriminate Hg; discriminate.
  - rewrite invoke_run, Hout, Hnet. cbn [fst]. unfold caught. rewrite Hg, Ha.
    unfold payload_of in Hp.
    destruct (is_list op); eexists; unfold failed_list, failed, js_or; rewrite Hp; reflexivity.
Qed.

Lemma failure_without_payload_uses_fallback_witness :
  exists d,
    fst (invoke (always (Rejected timeout_error)) (ReturnBook (VNum 12)) fresh_world)
    = Normal (Shaped {| success := false; data := d;
                        error := Some (VStr "Failed to return book") |}).
Proof.
  exact (proj2 (failure_without_payload_uses_fallback (always (Rejected timeout_error))
                  (ReturnBook (VNum 12)) fresh_world _ timeout_error
                  eq_refl eq_refl eq_refl eq_refl eq_refl)).
Defined.

(** X3: an admin list operation that fails without a response (timeout,
    network error) reports [<prefix>: undefined <message of the error>]; with
    a response whose body is falsy it reports the status followed by the
    message of the error. *)
Theorem admin_list_failure_message net op w config e :
  is_admin_list op = true ->
  outgoing op w = Some config ->
  net (sent w) config = Rejected e ->
  (error_response e = None ->
     fst (invoke net op w)
     = Normal (Shaped {| success := false; data := Some (VArr []);
                         error := Some (VStr (fallback op +:+ ": undefined "
                                              +:+ error_message e)) |}))
  /\ (forall r, error_response e = Some r -> truthy (response_data r) = false ->
        fst (invoke net op w)
        = Normal (Shaped {| success := false; data := Some (VArr []);
                            error := Some (VStr (fallback op +:+ ": "
                                                 +:+ number_to_string (response_status r)
                                                 +:+ " " +:+ error_message e)) |})).
Proof.
  intros Ha Hout Hnet. rewrite invoke_run, Hout, Hnet. cbn [fst]. unfold caught.
  rewrite Ha, (admin_list_is_not_generic op Ha).
  unfold admin_text, exn_status, exn_data. split.
  - intros ->. reflexivity.
  - intros r -> Hf. unfold js_or. rewrite Hf. reflexivity.
Qed.

Lemma admin_list_failure_message_witness :
  fst (invoke (always (Rejected timeout_error)) GetAllBookings fresh_world)
  = Normal (Shaped {| success := false; data := Some (VArr []);
                      error := Some (VStr "Failed to fetch bookings: undefined timeout of 10000ms exceeded") |}).
Proof.
  exact (proj1 (admin_list_failure_message (always (Rejected timeout_error))
                  GetAllBookings fresh_world _ timeout_error eq_refl eq_refl eq_refl) eq_refl).
Defined.

Lemma invoke_storage_cases net op w :
  localStorage (snd (invoke net op w)) = localStorage w
  \/ localStorage (snd (invoke net op w))
     = delete "userInfo" (delete "token" (localStorage w)).
Proof.
  rewrite invoke_run. destruct (outgoing op w) as [config|]; [|left; reflexivity].
  destruct (net (sent w) _) as [r|e]; [left; reflexivity|].
  cbn [snd]. unfold after_rejection. destruct (status_is_401 e); [right|left]; reflexivity.
Qed.

Lemma evicted_lookup (storage : gmap string string) k v :
  delete "userInfo" (delete "token" storage) !! k = Some v ->
  storage !! k = Some v /\ k <> "token" /\ k <> "userInfo".
Proof.
  intros H. apply lookup_delete_Some in H as [Hu H].
  apply lookup_delete_Some in H as [Ht H]. auto.
Qed.

(** X4: calls of the gateway never write to storage.  After any sequence
    of calls, whatever the backend answers, every key still in storage was
    there before with the same value, and every key other than [token] and
    [userInfo] is untouched. *)
Theorem gateway_never_writes_storage net ops w k :
  (forall v, localStorage (invoke_all net ops w) !! k = Some v ->
     localStorage w !! k = Some v)
  /\ (k <> "token" -> k <> "userInfo" ->
        localStorage (invoke_all net ops w) !! k = localStorage w !! k).
Proof.
  revert w. induction ops as [|op rest IH]; intros w; cbn [invoke_all]; [auto|].
  destruct (IH (snd (invoke net op w))) as [IH1 IH2].
  destruct (invoke_storage_cases net op w) as [E|E]; rewrite E in IH1, IH2.
  - auto.
  - split.
    + intros v Hv. apply IH1 in Hv. apply evicted_lookup in Hv. tauto.
    + intros Ht Hu. rewrite IH2 by assumption.
      rewrite !lookup_delete_ne by congruence. reflexivity.
Qed.

Lemma gateway_never_writes_storage_witness :
  let net := always (Rejected (server_error 401 (VStr "Unauthorized"))) in
  let w := {| localStorage := <["theme" := "dark"]> (localStorage signed_in_world);
              navigations := []; sent := [] |} in
  localStorage (invoke_all net [GetUserBookings; GetAvailableBooks] w) !! "theme"
  = localStorage w !! "theme".
Proof.
  apply (proj2 (gateway_never_writes_storage
                  (always (Rejected (server_error 401 (VStr "Unauthorized"))))
                  [GetUserBookings; GetAvailableBooks]
                  {| localStorage := <["theme" := "dark"]> (localStorage signed_in_world);
                     navigations := []; sent := [] |} "theme")); discriminate.
Defined.

(** X5: no call is retried.  A sequence of calls hands the adapter, in
    order, exactly one request for each call whose path can be built, with
    the method, path and payload of that call, whether the calls succeed or
    fail; a call whose identifier does not convert to a string sends
    none. *)
Theorem one_request_per_call net ops w :
  exists new,
    sent (invoke_all net ops w) = sent w ++ new
    /\ map shape_of new = omap wire ops.
Proof.
  revert w. induction ops as [|op rest IH]; intros w; cbn [invoke_all].
  - exists []. rewrite app_nil_r. auto.
  - destruct (IH (snd (invoke net op w))) as (new & Hsent & Hshape).
    exists (option_list (outgoing op w) ++ new). rewrite Hsent, invoke_sends, <- app_assoc.
    split; [reflexivity|]. cbn [omap list_omap]. rewrite <- (outgoing_shape op w), map_app, Hshape.
    destruct (outgoing op w); reflexivity.
Qed.

(** The paths of two calls with unusual identifiers: a number from
    [10^21] on is written with an exponent, and an object with a key
    [toString] gives no path. *)
Lemma wire_of_unusual_identifiers :
  wire (GetBookById (VNum (10 ^ 21))) = Some ("get", "/api/user/books/1e+21", VUndefined)
  /\ wire (GetBookById (VNum 42)) = Some ("get", "/api/user/books/42", VUndefined)
  /\ wire (GetBookById (VStr "42")) = Some ("get", "/api/user/books/42", VUndefined)
  /\ wire (GetBookById unprintable_payload) = None
  /\ sent (invoke_all (always (Rejected timeout_error))
             [GetBookById unprintable_payload] fresh_world) = [].
Proof. repeat split; reflexivity. Qed.

(** X6: once a response with status 401 has been handled, the token is
    gone from storage, so the request of any later call carries no
    [Authorization] header. *)
Theorem no_header_after_unauthorized net op w config e op' :
  outgoing op w = Some config ->
  net (sent w) config = Rejected e ->
  has_status e 401 ->
  (forall config', outgoing op' (snd (invoke net op w)) = Some config' ->
     headers config' !! "Authorization" = None)
  /\ forall net',
       sent (snd (invoke net' op' (snd (invoke net op w))))
       = sent w ++ config :: option_list (outgoing op' (snd (invoke net op w))).
Proof.
  intros Hout Hnet H401. split.
  - intros config' Hout'. apply (outgoing_headers_none op' _ config' Hout').
    rewrite invoke_run, Hout, Hnet. cbn [snd].
    unfold after_rejection. apply status_is_401_true in H401. rewrite H401.
    cbn [evicted localStorage]. rewrite lookup_delete_ne by discriminate.
    apply lookup_delete_eq.
  - intros net'. rewrite !invoke_sends, Hout, <- app_assoc. reflexivity.
Qed.

Lemma no_header_after_unauthorized_witness :
  let net := always (Rejected (server_error 401 (VStr "Token expired"))) in
  (exists config',
     outgoing GetAvailableBooks (snd (invoke net GetUserBookings signed_in_world)) = Some config'
     /\ headers config' !! "Authorization" = None)
  /\ exists config,
       outgoing GetUserBookings signed_in_world = Some config
       /\ headers config !! "Authorization" = Some "Bearer t0".
Proof.
  split.
  - eexists. split; [reflexivity|].
    apply (proj1 (no_header_after_unauthorized
                    (always (Rejected (server_error 401 (VStr "Token expired"))))
                    GetUserBookings signed_in_world _ (server_error 401 (VStr "Token expired"))
                    GetAvailableBooks eq_refl eq_refl
                    (ex_intro _ _ (conj eq_refl eq_refl))) _ eq_refl).
  - eexists. split; reflexivity.
Defined.

(** X7: the request interceptor never fails, only reads storage, and
    touches nothing but the [Authorization] header: method, path, payload
    and every other header leave it as they came in.  With a non-empty token
    in storage the header is set to [Bearer <token>], whatever the
    configuration held there; with no token, or an empty one, the
    configuration leaves it as it came in. *)
Theorem interceptor_changes_only_authorization config w :
  exists config',
    api.request_interceptor config w = (Normal config', w)
    /\ shape_of config' = shape_of config
    /\ (forall k, k <> "Authorization" -> headers config' !! k = headers config !! k)
    /\ (forall t, localStorage w !! "token" = Some t -> t <> "" ->
          headers config' !! "Authorization" = Some ("Bearer " +:+ t))
    /\ (localStorage w !! "token" = None \/ localStorage w !! "token" = Some "" ->
          config' = config).
Proof.
  exists (with_token w config). split; [apply request_interceptor_run|].
  unfold with_token.
  destruct (localStorage w !! "token") as [[|c rest]|] eqn:Ht.
  - split; [reflexivity|]. split; [reflexivity|]. split.
    + intros t [= <-] H. contradiction.
    + reflexivity.
  - split; [reflexivity|]. split; [|split].
    + intros k Hk. cbn [headers api.set_authorization].
      apply lookup_insert_ne. congruence.
    + intros t [= <-] _. cbn [headers api.set_authorization]. apply lookup_insert_eq.
    + intros [H|H]; discriminate H.
  - split; [reflexivity|]. split; [reflexivity|]. split.
    + intros t [=].
    + reflexivity.
Qed.

Lemma interceptor_changes_only_authorization_witness :
  exists config',
    api.request_interceptor
      {| method := "get"; url := "/api/user/bookings"; body := VUndefined;
         headers := api.default_headers |} signed_in_world
    = (Normal config', signed_in_world)
    /\ headers config' !! "Authorization" = Some "Bearer t0"
    /\ headers config' !! "Accept" = Some "application/json, text/plain, */*"
    /\ headers config' !! "Content-Type" = Some "application/json".
Proof.
  destruct (interceptor_changes_only_authorization
              {| method := "get"; url := "/api/user/bookings"; body := VUndefined;
                 headers := api.default_headers |} signed_in_world)
    as (config' & Hrun & _ & Hother & Hheld & _).
  exists config'. split; [exact Hrun|]. split; [|split].
  - apply (Hheld "t0"); [reflexivity|discriminate].
  - rewrite Hother by discriminate. reflexivity.
  - rewrite Hother by discriminate. reflexivity.
Defined.

(** *** The search path *)

Lemma hex_digit_upper_unreserved c :
  uri_unreserved (hex_digit true (N_of_ascii c / 16)) = true
  /\ uri_unreserved (hex_digit true (N_of_ascii c mod 16)) = true.
Proof. destruct c as [[] [] [] [] [] [] [] []]; split; reflexivity. Qed.

Lemma encodeURIComponent_chars q c :
  In c (list_ascii_of_string (encodeURIComponent q)) ->
  uri_unreserved c = true \/ c = "%"%char.
Proof.
  induction q as [|a rest IH]; cbn [encodeURIComponent]; [intros []|].
  destruct (uri_unreserved a) eqn:Ha.
  - cbn. intros [<-|H]; [left; exact Ha|apply IH, H].
  - destruct (hex_digit_upper_unreserved a) as [H1 H2].
    cbn. intros [<-|[<-|[<-|H]]]; auto.
Qed.

Lemma encodeURIComponent_unreserved q :
  Forall (fun c => uri_unreserved c = true) (list_ascii_of_string q) ->
  encodeURIComponent q = q.
Proof.
  induction q as [|a rest IH]; [reflexivity|].
  cbn. intros H. apply Forall_cons in H as [Ha H]. rewrite Ha, IH by exact H. reflexivity.
Qed.

(** X8: the search path is the fixed prefix followed by the encoded
    query.  Apart from [%], the encoded query holds only letters, digits and
    [- _ . ! ~ * ' ( )], so a query cannot add a parameter, a fragment or a
    path segment; a query made of such characters only is sent as it is. *)
Theorem search_query_is_encoded query w :
  exists config encoded,
    outgoing (SearchBooks query) w = Some config
    /\ url config = "/api/user/books/search?query=" +:+ encoded
    /\ (forall c, In c (list_ascii_of_string encoded) ->
          c <> "&"%char /\ c <> "="%char /\ c <> "#"%char /\ c <> "?"%char
          /\ c <> "/"%char /\ c <> " "%char /\ c <> "+"%char)
    /\ (Forall (fun c => uri_unreserved c = true) (list_ascii_of_string query) ->
          encoded = query).
Proof.
  eexists _, (encodeURIComponent query). split; [reflexivity|]. split.
  - unfold configured, with_token.
    destruct (localStorage w !! "token") as [[|c rest]|]; reflexivity.
  - split; [|apply encodeURIComponent_unreserved].
    intros c Hc. apply encodeURIComponent_chars in Hc as [Hc| ->].
    + repeat split; intros ->; discriminate Hc.
    + repeat split; discriminate.
Qed.

Lemma search_query_is_encoded_witness :
  url <$> outgoing (SearchBooks "war & peace") fresh_world
  = Some "/api/user/books/search?query=war%20%26%20peace"
  /\ exists config encoded,
       outgoing (SearchBooks "tolstoy") fresh_world = Some config
       /\ url config = "/api/user/books/search?query=" +:+ encoded
       /\ encoded = "tolstoy".
Proof.
  split; [reflexivity|].
  destruct (search_query_is_encoded "tolstoy" fresh_world)
    as (config & encoded & Hout & Hurl & _ & Hsame).
  exists config, encoded. split; [exact Hout|]. split; [exact Hurl|]. apply Hsame.
  repeat constructor.
Defined.


(** ** Further properties of the session manager *)

Lemma gateway_register_run net userData w :
  APIService.register net userData w =
  match net (sent w) (register_request userData w) with
  | Resolved r => (Normal (succeeded r), after_send (register_request userData w) w)
  | Rejected e =>
      (Normal (failed "Registration failed" (AxiosError e)),
       after_rejection e (after_send (register_request userData w) w))
  end.
Proof. unfold APIService.register, api.post. rewrite guarded_run. reflexivity. Qed.

Lemma register_run net userData s w :
  AuthProvider.register net userData (s, w) =
  match userData with
  | VUndefined | VNull => (Normal register_unexpected, (stopped_loading s, w))
  | _ =>
      match net (sent w) (register_request userData w) with
      | Resolved r =>
          (Normal {| success := true; data := None; error := None |},
           (stopped_loading s, after_send (register_request userData w) w))
      | Rejected e =>
          (Normal (failed "Registration failed" (AxiosError e)),
           (stopped_loading s,
            after_rejection e (after_send (register_request userData w) w)))
      end
  end.
Proof.
  unfold AuthProvider.register.
  unfold bind at 1. unfold AuthProvider.setLoading at 1. cbn [fst snd].
  unfold try_finally, try_catch. unfold bind at 1.
  destruct userData; cbn [require_object_coercible]; try reflexivity.
  all: unfold ret at 1; unfold bind at 1; unfold AuthProvider.outside at 1; cbn [fst snd];
    rewrite gateway_register_run; destruct (net (sent w) _) as [r|e]; reflexivity.
Qed.

(** X9: [register] never raises, always clears [loading] and never
    touches [token] or [currentUser].  A registration the gateway accepts
    returns a bare [{success: true}] and leaves storage alone (it does not
    sign the user in); one the gateway refuses returns the gateway's
    failure result as it is, and storage changes only if the answer was a
    401. *)
Theorem register_keeps_session net userData s w :
  let out := AuthProvider.register net userData (s, w) in
  let s' := fst (snd out) in
  let w' := snd (snd out) in
  (exists r, fst out = Normal r)
  /\ loading s' = false /\ token s' = token s /\ currentUser s' = currentUser s
  /\ (forall r,
        fst (APIService.register net userData w) = Normal r -> ~ absent userData ->
        (success r = true ->
           fst out = Normal {| success := true; data := None; error := None |}
           /\ localStorage w' = localStorage w)
        /\ (success r = false -> fst out = Normal r)
        /\ (forall e, net (sent w) (register_request userData w) = Rejected e ->
              ~ has_status e 401 -> localStorage w' = localStorage w)).
Proof.
  cbn zeta. rewrite register_run, gateway_register_run.
  destruct userData;
    try (cbn [fst snd stopped_loading loading token currentUser];
         split; [eauto|]; repeat (split; [reflexivity|]);
         intros r _ H; exfalso; apply H; unfold absent; auto; fail).
  all: destruct (net (sent w) _) as [r|e];
    cbn [fst snd stopped_loading loading token currentUser];
    (split; [eauto|]); repeat (split; [reflexivity|]); intros r' [= <-] _.
  all: try (split; [auto|]; split; [discriminate|]; intros e [=]).
  all: split; [discriminate|]; split; [reflexivity|];
    intros e' [= <-] H%status_is_401_false; unfold after_rejection; rewrite H; reflexivity.
Qed.

Lemma register_keeps_session_witness :
  let userData := VObj [("username", VStr "bob"); ("password", VStr "pw");
                        ("role", VStr "ADMIN"); ("adminKey", VStr "wrong")] in
  let net := always (Rejected (server_error 400 (VStr "invalid admin key"))) in
  let out := AuthProvider.register net userData (anonymous_session, fresh_world) in
  fst out = Normal {| success := false; data := None;
                      error := Some (VStr "invalid admin key") |}
  /\ localStorage (snd (snd out)) = localStorage fresh_world.
Proof.
  pose proof (register_keeps_session
                (always (Rejected (server_error 400 (VStr "invalid admin key"))))
                (VObj [("username", VStr "bob"); ("password", VStr "pw");
                       ("role", VStr "ADMIN"); ("adminKey", VStr "wrong")])
                anonymous_session fresh_world) as H.
  cbn zeta in H. destruct H as (_ & _ & _ & _ & H).
  destruct (H {| success := false; data := None; error := Some (VStr "invalid admin key") |}
              eq_refl) as (_ & Hfail & Hstore).
  { intros [E|E]; discriminate E. }
  cbn zeta. split.
  - apply Hfail. reflexivity.
  - apply (Hstore (server_error 400 (VStr "invalid admin key")) eq_refl).
    intros (r & [= <-] & E). discriminate E.
Defined.

(** X10: [register] called with [null] or [undefined] sends nothing: the
    exception of reading [userData.adminKey] is caught, the fixed message is
    returned and the world is left exactly as it was. *)
Theorem register_without_data_sends_nothing net userData s w :
  absent userData ->
  AuthProvider.register net userData (s, w)
  = (Normal {| success := false; data := None;
               error := Some (VStr "An unexpected error occurred during registration") |},
     (stopped_loading s, w)).
Proof. intros [-> | ->]; rewrite register_run; reflexivity. Qed.

Lemma register_without_data_sends_nothing_witness :
  snd (snd (AuthProvider.register (always (Rejected timeout_error)) VUndefined
              (anonymous_session, signed_in_world)))
  = signed_in_world.
Proof.
  rewrite (register_without_data_sends_nothing (always (Rejected timeout_error)) VUndefined
             anonymous_session signed_in_world); [reflexivity|right; reflexivity].
Defined.

(** *** Hydration *)

Lemma reload_run JSON_parse w :
  reload JSON_parse w =
  match localStorage w !! "token" with
  | Some (String c rest) =>
      match localStorage w !! "userInfo" with
      | Some (String c' rest') =>
          match JSON_parse (String c' rest') with
          | Some parsedUser =>
              (Normal tt,
               ({| currentUser := parsedUser; token := VStr (String c rest);
                   loading := false |}, w))
          | None =>
              (Normal tt,
               ({| currentUser := VNull; token := VNull; loading := false |},
                {| localStorage := delete "userInfo" (delete "token" (localStorage w));
                   navigations := navigations w;
                   sent := sent w |}))
          end
      | _ =>
          (Normal tt,
           ({| currentUser := VNull; token := VStr (String c rest); loading := false |}, w))
      end
  | Some "" => (Normal tt, ({| currentUser := VNull; token := VStr ""; loading := false |}, w))
  | None => (Normal tt, ({| currentUser := VNull; token := VNull; loading := false |}, w))
  end.
Proof.
  unfold reload, AuthProvider.mount. rewrite initializeAuth_run. cbn [token].
  destruct (localStorage w !! "token") as [[|c rest]|]; reflexivity.
Qed.

(** X11: a page load that finds a token and a [userInfo] text that
    [JSON.parse] rejects ends logged out: both storage keys are removed, both
    state cells are [null], [loading] is cleared, and nothing is sent and no
    navigation is made. *)
Theorem corrupt_user_info_logs_out JSON_parse w t text :
  localStorage w !! "token" = Some t -> t <> "" ->
  localStorage w !! "userInfo" = Some text -> text <> "" ->
  JSON_parse text = None ->
  let out := reload JSON_parse w in
  fst out = Normal tt
  /\ logged_out (snd out)
  /\ loading (fst (snd out)) = false
  /\ AuthProvider.isLoggedIn (fst (snd out)) = false
  /\ sent (snd (snd out)) = sent w
  /\ navigations (snd (snd out)) = navigations w
  /\ (forall k, k <> "token" -> k <> "userInfo" ->
        localStorage (snd (snd out)) !! k = localStorage w !! k).
Proof.
  intros Ht Hne Hu Hne' Hparse. cbn zeta. rewrite reload_run, Ht, Hu.
  destruct t as [|c rest]; [contradiction|]. destruct text as [|c' rest']; [contradiction|].
  rewrite Hparse. unfold logged_out. cbn [fst snd localStorage token currentUser loading sent navigations].
  rewrite lookup_delete_ne by discriminate. rewrite !lookup_delete_eq.
  repeat match goal with |- _ /\ _ => split end; try reflexivity.
  intros k Hk1 Hk2. rewrite !lookup_delete_ne by congruence. reflexivity.
Qed.

Lemma corrupt_user_info_logs_out_witness :
  let w := {| localStorage := <["userInfo" := "{oops"]> (<["token" := "t0"]> ∅);
              navigations := []; sent := [] |} in
  logged_out (snd (reload (fun _ => None) w)).
Proof.
  apply (corrupt_user_info_logs_out (fun _ => None)
           {| localStorage := <["userInfo" := "{oops"]> (<["token" := "t0"]> ∅);
              navigations := []; sent := [] |} "t0" "{oops");
    first [reflexivity|discriminate].
Defined.

(** X12: a page load that finds no token (no [token] key, or the empty
    string) leaves the world exactly as it is, even if a [userInfo] key is
    still in storage: the user stays [null], [loading] is cleared and the
    session is not logged in. *)
Theorem load_without_token_is_anonymous JSON_parse w :
  localStorage w !! "token" = None \/ localStorage w !! "token" = Some "" ->
  let out := reload JSON_parse w in
  fst out = Normal tt
  /\ snd (snd out) = w
  /\ currentUser (fst (snd out)) = VNull
  /\ truthy (token (fst (snd out))) = false
  /\ loading (fst (snd out)) = false
  /\ AuthProvider.isLoggedIn (fst (snd out)) = false.
Proof.
  intros [Ht|Ht]; cbn zeta; rewrite reload_run, Ht; repeat split.
Qed.

Lemma load_without_token_is_anonymous_witness :
  let w := {| localStorage := {[ "userInfo" := "{}" ]}; navigations := []; sent := [] |} in
  snd (snd (reload (fun _ => Some (VObj [])) w)) = w
  /\ currentUser (fst (snd (reload (fun _ => Some (VObj [])) w))) = VNull.
Proof.
  pose proof (load_without_token_is_anonymous (fun _ => Some (VObj []))
                {| localStorage := {[ "userInfo" := "{}" ]}; navigations := []; sent := [] |}
                (or_introl eq_refl)) as H.
  cbn zeta in *. tauto.
Defined.

(** X13: a page load that finds a token and a [userInfo] text that parses
    keeps the token, takes whatever value the text parses to as the user and
    leaves the world alone.  The session is then logged in exactly when that
    value is truthy: a stored [null] leaves a token without a user, and no
    teardown happens. *)
Theorem load_takes_parsed_user JSON_parse w t text parsedUser :
  localStorage w !! "token" = Some t -> t <> "" ->
  localStorage w !! "userInfo" = Some text -> text <> "" ->
  JSON_parse text = Some parsedUser ->
  reload JSON_parse w
  = (Normal tt, ({| currentUser := parsedUser; token := VStr t; loading := false |}, w))
  /\ AuthProvider.isLoggedIn (fst (snd (reload JSON_parse w))) = truthy parsedUser.
Proof.
  intros Ht Hne Hu Hne' Hparse. rewrite reload_run, Ht, Hu.
  destruct t as [|c rest]; [contradiction|]. destruct text as [|c' rest']; [contradiction|].
  rewrite Hparse. split; [reflexivity|].
  unfold AuthProvider.isLoggedIn. cbn [fst snd token currentUser truthy negb andb].
  apply negb_involutive.
Qed.

Lemma load_takes_parsed_user_witness :
  let w := {| localStorage := <["userInfo" := "null"]> (<["token" := "t0"]> ∅);
              navigations := []; sent := [] |} in
  reload (fun _ => Some VNull) w
  = (Normal tt, ({| currentUser := VNull; token := VStr "t0"; loading := false |}, w))
  /\ AuthProvider.isLoggedIn (fst (snd (reload (fun _ => Some VNull) w))) = false.
Proof.
  apply (load_takes_parsed_user (fun _ => Some VNull)
           {| localStorage := <["userInfo" := "null"]> (<["token" := "t0"]> ∅);
              navigations := []; sent := [] |} "t0" "null" VNull);
    first [reflexivity|discriminate].
Defined.

Lemma initializeAuth_cases JSON_parse s w :
  (exists cu, AuthProvider.initializeAuth JSON_parse (s, w)
              = (Normal tt, ({| currentUser := cu; token := token s; loading := false |}, w)))
  \/ AuthProvider.initializeAuth JSON_parse (s, w)
     = (Normal tt,
        ({| currentUser := VNull; token := VNull; loading := false |},
         {| localStorage := delete "userInfo" (delete "token" (localStorage w));
            navigations := navigations w;
            sent := sent w |})).
Proof.
  rewrite initializeAuth_run. unfold stopped_loading.
  destruct (truthy (token s)); [|eauto].
  destruct (localStorage w !! "userInfo") as [[|c rest]|]; [eauto| |eauto].
  destruct (JSON_parse (String c rest)); eauto.
Qed.

(** X14: whatever is in the state and in storage, and whatever
    [JSON.parse] does, the hydration effect completes without an exception,
    clears [loading], sends no request, makes no navigation and never writes
    a value into storage; if the token cell agreed with storage before, it
    still does afterwards. *)
Theorem hydration_is_quiet JSON_parse st :
  let out := AuthProvider.initializeAuth JSON_parse st in
  fst out = Normal tt
  /\ loading (fst (snd out)) = false
  /\ sent (snd (snd out)) = sent (snd st)
  /\ navigations (snd (snd out)) = navigations (snd st)
  /\ (forall k v, localStorage (snd (snd out)) !! k = Some v ->
        localStorage (snd st) !! k = Some v)
  /\ (in_step st -> in_step (snd out)).
Proof.
  destruct st as [s w]. cbn zeta.
  destruct (initializeAuth_cases JSON_parse s w) as [[cu ->]| ->];
    cbn [fst snd loading sent navigations localStorage].
  - repeat (split; [reflexivity|]). split; [auto|]. intros H. exact H.
  - repeat (split; [reflexivity|]). split.
    + intros k v Hk. apply evicted_lookup in Hk. tauto.
    + intros _. unfold in_step. cbn [fst snd token localStorage].
      rewrite lookup_delete_ne by discriminate. rewrite lookup_delete_eq. reflexivity.
Qed.

Lemma hydration_is_quiet_witness :
  in_step (snd (AuthProvider.initializeAuth (fun _ => None)
                  (signed_in_session, signed_in_world))).
Proof.
  apply (hydration_is_quiet (fun _ => None) (signed_in_session, signed_in_world)).
  reflexivity.
Defined.

(** *** How the operations compose *)

Lemma stored_user_info_nonempty payload :
  exists c rest, user_info_text payload = String c rest.
Proof. unfold user_info_text, user_info_of. cbn [stringify]. eexists _, _. reflexivity. Qed.

Lemma signed_in_storage_token text payload (storage : gmap string string) :
  signed_in_storage text payload storage !! "token" = Some text.
Proof.
  unfold signed_in_storage. rewrite lookup_insert_ne by discriminate. apply lookup_insert_eq.
Qed.

Lemma signed_in_storage_user_info text payload (storage : gmap string string) :
  signed_in_storage text payload storage !! "userInfo" = Some (user_info_text payload).
Proof. unfold signed_in_storage. apply lookup_insert_eq. Qed.

(** X15: a page load after a successful login restores the session the
    login left.  If the response carried a non-empty string as token, and
    [JSON.parse] reads back the [userInfo] text that [login] stored, then
    mounting on the world after [login] and running the hydration effect
    gives the same token and user, with [loading] cleared, and does not
    change the world. *)
Theorem reload_restores_login JSON_parse net username password s w r t :
  net (sent w) (login_request (credentials_of username password) w) = Resolved r ->
  prop (response_data r) "token" = VStr t -> t <> "" ->
  JSON_parse (user_info_text (response_data r)) = Some (user_info_of (response_data r)) ->
  let st' := snd (AuthProvider.login net username password (s, w)) in
  reload JSON_parse (snd st') = (Normal tt, st')
  /\ AuthProvider.isLoggedIn (fst st') = true.
Proof.
  intros Hnet Ht Hne Hparse. cbn zeta. rewrite login_run. cbn zeta. rewrite Hnet, Ht.
  destruct (stored_user_info_nonempty (response_data r)) as (c & rest & Htext).
  destruct t as [|ct restt]; [contradiction|].
  assert (Hreload : forall w',
            localStorage w'
            = signed_in_storage (String ct restt) (response_data r) (localStorage w) ->
            reload JSON_parse w'
            = (Normal tt, ({| currentUser := user_info_of (response_data r);
                              token := VStr (String ct restt);
                              loading := false |}, w'))).
  { intros w' Hw'. rewrite reload_run, Hw', signed_in_storage_token,
      signed_in_storage_user_info.
    rewrite Htext, <- Htext, Hparse. reflexivity. }
  destruct (response_data r) eqn:Hd; try discriminate Ht; cbn [snd fst to_string].
  split; [apply Hreload; reflexivity|]. reflexivity.
Qed.

Lemma reload_restores_login_witness :
  let net := always (Resolved {| response_status := 200; response_data := alice_payload |}) in
  let parse := fun text : string =>
                 if String.eqb text alice_user_info
                 then Some (user_value "alice" USER) else None in
  let st' := snd (AuthProvider.login net (VStr "alice") (VStr "secret")
                    (anonymous_session, fresh_world)) in
  reload parse (snd st') = (Normal tt, st')
  /\ AuthProvider.isLoggedIn (fst st') = true.
Proof.
  apply (reload_restores_login
           (fun text : string =>
              if String.eqb text alice_user_info
              then Some (user_value "alice" USER) else None)
           (always (Resolved {| response_status := 200; response_data := alice_payload |}))
           (VStr "alice") (VStr "secret") anonymous_session fresh_world
           {| response_status := 200; response_data := alice_payload |} "t1");
    first [reflexivity|discriminate].
Defined.

Lemma evict_twice (storage : gmap string string) :
  delete "userInfo" (delete "token" (delete "userInfo" (delete "token" storage)))
  = delete "userInfo" (delete "token" storage).
Proof.
  apply map_eq. intros k. rewrite !lookup_delete.
  repeat case_decide; reflexivity.
Qed.

Lemma evict_signed_in text payload (storage : gmap string string) :
  delete "userInfo" (delete "token" (signed_in_storage text payload storage))
  = delete "userInfo" (delete "token" storage).
Proof.
  unfold signed_in_storage. apply map_eq. intros k.
  repeat (rewrite lookup_delete || rewrite lookup_insert).
  repeat case_decide; congruence.
Qed.

(** X16: [logout] erases whatever [login] did.  Whether the login
    succeeded, was refused, was answered 401 or hit the exception path,
    [login] followed by [logout] leaves a logged-out session and the storage
    that [logout] alone would have left: both session keys gone, every other
    key as before. *)
Theorem logout_after_login net username password s w :
  let st1 := snd (AuthProvider.login net username password (s, w)) in
  let out := AuthProvider.logout st1 in
  fst out = Normal tt
  /\ logged_out (snd out)
  /\ localStorage (snd (snd out)) = localStorage (snd (snd (AuthProvider.logout (s, w))))
  /\ AuthProvider.isLoggedIn (fst (snd out)) = false.
Proof.
  cbn zeta. destruct (snd (AuthProvider.login net username password (s, w))) as [s1 w1] eqn:Hst.
  rewrite !logout_run. cbn [fst snd localStorage token currentUser]. unfold logged_out.
  cbn [fst snd localStorage token currentUser].
  rewrite lookup_delete_ne by discriminate. rewrite !lookup_delete_eq.
  repeat match goal with |- _ /\ _ => split end; try reflexivity.
  rewrite login_run in Hst. cbn zeta in Hst.
  destruct (net (sent w) _) as [r|e].
  - destruct (response_data r); try destruct (to_string _);
      injection Hst as _ <-; cbn [localStorage after_send];
      first [reflexivity|apply evict_signed_in].
  - injection Hst as _ <-. unfold after_rejection.
    destruct (status_is_401 e); cbn [localStorage evicted after_send];
      [apply evict_twice|reflexivity].
Qed.

Lemma login_run_present net username password s w r :
  net (sent w) (login_request (credentials_of username password) w) = Resolved r ->
  ~ absent (response_data r) ->
  AuthProvider.login net username password (s, w) =
  match to_string (prop (response_data r) "token") with
  | Some text =>
      (Normal login_succeeded,
       ({| currentUser := user_info_of (response_data r);
           token := prop (response_data r) "token";
           loading := false |},
        {| localStorage := signed_in_storage text (response_data r) (localStorage w);
           navigations := navigations w;
           sent := sent w ++ [login_request (credentials_of username password) w] |}))
  | None =>
      (Normal login_unexpected,
       (stopped_loading s,
        after_send (login_request (credentials_of username password) w) w))
  end.
Proof.
  intros Hnet Hpresent. rewrite login_run. cbn zeta. rewrite Hnet.
  destruct (response_data r) eqn:Hd;
    try (exfalso; apply Hpresent; unfold absent; auto; fail); reflexivity.
Qed.

(** X17: [login] does not check that the response carries a token.  For
    a fulfilled response with a payload, storage receives the payload's
    [token] converted to a string, whenever that conversion goes through:
    [login] returns [{success: true}] and the state cell takes the token as
    it came.  When the payload has no [token] the text stored is
    [undefined]: the session is not logged in, and later requests are sent
    with [Authorization: Bearer undefined].  When the token does not convert
    to a string, [setItem] throws: [login] returns the message of its
    [catch] block and leaves storage and both state cells as they were. *)
Theorem login_stores_any_token net username password s w r :
  net (sent w) (login_request (credentials_of username password) w) = Resolved r ->
  ~ absent (response_data r) ->
  let out := AuthProvider.login net username password (s, w) in
  (forall text,
     to_string (prop (response_data r) "token") = Some text ->
     fst out = Normal {| success := true; data := None; error := None |}
     /\ token (fst (snd out)) = prop (response_data r) "token"
     /\ localStorage (snd (snd out)) !! "token" = Some text)
  /\ (prop (response_data r) "token" = VUndefined ->
        fst out = Normal {| success := true; data := None; error := None |}
        /\ localStorage (snd (snd out)) !! "token" = Some "undefined"
        /\ AuthProvider.isLoggedIn (fst (snd out)) = false
        /\ forall op config,
             outgoing op (snd (snd out)) = Some config ->
             headers config !! "Authorization" = Some "Bearer undefined")
  /\ (to_string (prop (response_data r) "token") = None ->
        fst out = Normal {| success := false; data := None;
                            error := Some (VStr "An unexpected error occurred during login") |}
        /\ token (fst (snd out)) = token s
        /\ currentUser (fst (snd out)) = currentUser s
        /\ localStorage (snd (snd out)) = localStorage w).
Proof.
  intros Hnet Hpresent. cbn zeta.
  rewrite (login_run_present net username password s w r Hnet Hpresent).
  split; [|split].
  - intros text ->. cbn [fst snd token localStorage].
    split; [reflexivity|]. split; [reflexivity|]. apply signed_in_storage_token.
  - intros Hu. rewrite Hu. cbn [to_string fst snd token localStorage].
    split; [reflexivity|]. split; [apply signed_in_storage_token|]. split; [reflexivity|].
    intros op config Hout. apply (outgoing_headers_held op _ config "undefined" Hout);
      [|discriminate]. cbn [localStorage]. apply signed_in_storage_token.
  - intros ->. repeat split; reflexivity.
Qed.

Lemma login_stores_any_token_witness :
  let respond := fun payload =>
                   always (Resolved {| response_status := 200; response_data := payload |}) in
  let out := AuthProvider.login (respond (VObj [("message", VStr "welcome")]))
               (VStr "alice") (VStr "secret") (anonymous_session, fresh_world) in
  let out' := AuthProvider.login (respond (VObj [("token", unprintable_payload)]))
                (VStr "alice") (VStr "secret") (anonymous_session, fresh_world) in
  (fst out = Normal {| success := true; data := None; error := None |}
   /\ localStorage (snd (snd out)) !! "token" = Some "undefined"
   /\ AuthProvider.isLoggedIn (fst (snd out)) = false
   /\ forall op config,
        outgoing op (snd (snd out)) = Some config ->
        headers config !! "Authorization" = Some "Bearer undefined")
  /\ (fst out' = Normal {| success := false; data := None;
                           error := Some (VStr "An unexpected error occurred during login") |}
      /\ token (fst (snd out')) = token anonymous_session
      /\ currentUser (fst (snd out')) = currentUser anonymous_session
      /\ localStorage (snd (snd out')) = localStorage fresh_world).
Proof.
  split.
  - apply (proj1 (proj2 (login_stores_any_token
                           (always (Resolved {| response_status := 200;
                                                response_data := VObj [("message", VStr "welcome")] |}))
                           (VStr "alice") (VStr "secret") anonymous_session fresh_world
                           {| response_status := 200;
                              response_data := VObj [("message", VStr "welcome")] |} eq_refl
                           (fun H => match H with
                                     | or_introl E => ltac:(discriminate E)
                                     | or_intror E => ltac:(discriminate E)
                                     end)))).
    reflexivity.
  - apply (proj2 (proj2 (login_stores_any_token
                           (always (Resolved {| response_status := 200;
                                                response_data := VObj [("token", unprintable_payload)] |}))
                           (VStr "alice") (VStr "secret") anonymous_session fresh_world
                           {| response_status := 200;
                              response_data := VObj [("token", unprintable_payload)] |} eq_refl
                           (fun H => match H with
                                     | or_introl E => ltac:(discriminate E)
                                     | or_intror E => ltac:(discriminate E)
                                     end)))).
    reflexivity.
Defined.

(** X18: after a teardown the next page load is anonymous.  Whether the
    session was ended by [logout] or by the gateway's handling of a 401, and
    whatever [JSON.parse] would do, mounting afresh gives a session with no
    token and no user and leaves the world unchanged. *)
Theorem load_after_teardown_is_anonymous JSON_parse :
  (forall st,
     let w' := snd (snd (AuthProvider.logout st)) in
     reload JSON_parse w'
     = (Normal tt, ({| currentUser := VNull; token := VNull; loading := false |}, w')))
  /\ (forall net op w config e,
        outgoing op w = Some config ->
        net (sent w) config = Rejected e -> has_status e 401 ->
        let w' := snd (invoke net op w) in
        reload JSON_parse w'
        = (Normal tt, ({| currentUser := VNull; token := VNull; loading := false |}, w'))).
Proof.
  assert (Hnone : forall w', localStorage w' !! "token" = None ->
            reload JSON_parse w'
            = (Normal tt, ({| currentUser := VNull; token := VNull; loading := false |}, w'))).
  { intros w' Hw'. rewrite reload_run, Hw'. reflexivity. }
  split.
  - intros [s w]. cbn zeta. apply Hnone. rewrite logout_run. cbn [snd localStorage].
    rewrite lookup_delete_ne by discriminate. apply lookup_delete_eq.
  - intros net op w config e Hout Hnet H401%status_is_401_true. cbn zeta. apply Hnone.
    rewrite invoke_run, Hout, Hnet. cbn [snd]. unfold after_rejection. rewrite H401.
    cbn [evicted localStorage]. rewrite lookup_delete_ne by discriminate.
    apply lookup_delete_eq.
Qed.

Lemma load_after_teardown_is_anonymous_witness :
  let w' := snd (invoke (always (Rejected (server_error 401 (VStr "Token expired"))))
                   GetUserBookings signed_in_world) in
  reload (fun _ => Some (user_value "bob" USER)) w'
  = (Normal tt, ({| currentUser := VNull; token := VNull; loading := false |}, w')).
Proof.
  apply (proj2 (load_after_teardown_is_anonymous (fun _ => Some (user_value "bob" USER)))
           (always (Rejected (server_error 401 (VStr "Token expired"))))
           GetUserBookings signed_in_world _ (server_error 401 (VStr "Token expired"))
           eq_refl eq_refl).
  eexists. split; reflexivity.
Defined.

(** *** The derived values *)

(** X19: the display name is never falsy.  It is [Guest] when no user is
    present, when the user has no [username] or when the username is empty,
    and the username of a user of the data model otherwise. *)
Theorem display_name_is_never_empty s :
  truthy (AuthProvider.getUserDisplayName s) = true
  /\ (absent (currentUser s) -> AuthProvider.getUserDisplayName s = VStr "Guest")
  /\ (truthy (prop (currentUser s) "username") = false ->
        AuthProvider.getUserDisplayName s = VStr "Guest")
  /\ (forall name r, currentUser s = user_value name r ->
        AuthProvider.getUserDisplayName s = VStr (if String.eqb name "" then "Guest" else name)).
Proof.
  unfold AuthProvider.getUserDisplayName. split; [apply js_or_truthy; reflexivity|].
  split; [intros [-> | ->]; reflexivity|]. split.
  - intros H. unfold js_or.
    assert (truthy (opt_prop (currentUser s) "username") = false) as ->; [|reflexivity].
    destruct (currentUser s); try reflexivity; exact H.
  - intros name r ->. destruct name; reflexivity.
Qed.

Lemma display_name_is_never_empty_witness :
  AuthProvider.getUserDisplayName anonymous_session = VStr "Guest"
  /\ AuthProvider.getUserDisplayName signed_in_session = VStr "bob".
Proof.
  split.
  - apply (proj1 (proj2 (display_name_is_never_empty anonymous_session))).
    left. reflexivity.
  - apply (proj2 (proj2 (proj2 (display_name_is_never_empty signed_in_session))) "bob" USER).
    reflexivity.
Defined.

(** X20: no session is both admin and user; a session without a user is
    neither, and a session that is either has a truthy user. *)
Theorem roles_are_exclusive s :
  ~ (AuthProvider.isAdmin s = true /\ AuthProvider.isUser s = true)
  /\ (absent (currentUser s) ->
        AuthProvider.isAdmin s = false /\ AuthProvider.isUser s = false)
  /\ (AuthProvider.isAdmin s = true \/ AuthProvider.isUser s = true ->
        truthy (currentUser s) = true).
Proof.
  unfold AuthProvider.isAdmin, AuthProvider.isUser. split; [|split].
  - intros [Ha Hu]. apply strict_eq_str_true in Ha. apply strict_eq_str_true in Hu.
    rewrite Ha in Hu. discriminate Hu.
  - intros [-> | ->]; split; reflexivity.
  - intros H. destruct (currentUser s); try reflexivity; destruct H as [H|H]; discriminate H.
Qed.

Lemma roles_are_exclusive_witness :
  AuthProvider.isAdmin anonymous_session = false
  /\ AuthProvider.isUser anonymous_session = false.
Proof.
  apply (proj1 (proj2 (roles_are_exclusive anonymous_session))). left. reflexivity.
Defined.


(** ** The login page *)

Lemma truthy_str s : truthy (VStr s) = negb (String.eqb s "").
Proof. destruct s; reflexivity. Qed.

Lemma login_validateForm_run trim length (p : page Login.component) :
  let f := Login.formData (view p) in
  Login.validateForm trim length p =
  if String.eqb (trim (Login.username f)) "" then
    (Normal false, snd (Login.setError (VStr "Username is required") p))
  else if String.eqb (trim (Login.password f)) "" then
    (Normal false, snd (Login.setError (VStr "Password is required") p))
  else if length (Login.username f) <? 3 then
    (Normal false, snd (Login.setError (VStr "Username must be at least 3 characters") p))
  else (Normal true, p).
Proof.
  cbn zeta. unfold Login.validateForm.
  unfold bind at 1. unfold get_view at 1. rewrite !truthy_str, !negb_involutive.
  destruct (String.eqb (trim _) ""); [reflexivity|].
  destruct (String.eqb (trim _) ""); [reflexivity|].
  destruct (length _ <? 3); reflexivity.
Qed.

(** A submit that passes validation: whatever [login] returns, the page
    shown afterwards is a new instance in its initial state, and the handler
    of the old one asks the router for [/] when the login succeeded. *)
Lemma login_handleSubmit_run trim length net (p : page Login.component) :
  let f := Login.formData (view p) in
  let outcome_of_login :=
    AuthProvider.login net (VStr (trim (Login.username f))) (VStr (Login.password f))
      (auth p) in
  let finish (routes : list (string * bool)) :=
    {| view := Login.initial; auth := snd outcome_of_login; routed := routes |} in
  Login.handleSubmit trim length net p =
  match Login.validateForm trim length p with
  | (Normal true, _) =>
      match fst outcome_of_login with
      | Normal result =>
          if success result
          then (Normal tt, finish (routed p ++ [("/", true)]))
          else (Normal tt, finish (routed p))
      | Throw _ => (Normal tt, finish (routed p))
      end
  | (_, p') => (Normal tt, p')
  end.
Proof.
  cbn zeta. unfold Login.handleSubmit.
  unfold bind at 1. unfold get_view at 1. unfold bind at 1.
  rewrite login_validateForm_run. cbn zeta.
  destruct (String.eqb (trim _) ""); [reflexivity|].
  destruct (String.eqb (trim _) ""); [reflexivity|].
  destruct (length _ <? 3); [reflexivity|].
  cbn [negb]. unfold bind at 1. unfold Login.setError at 1, set_view at 1.
  unfold bind at 1. unfold Login.setIsSubmitting at 1, set_view at 1. cbn [view auth routed].
  unfold try_finally, try_catch. unfold bind at 1. unfold remounting at 1.
  cbn [view auth routed].
  destruct (AuthProvider.login net _ _ (auth p)) as [[result|e] st'] eqn:Hlogin; cbn [fst snd].
  - destruct (success result); reflexivity.
  - reflexivity.
Qed.

(** X21: a login form that fails validation goes nowhere.  When the
    trimmed username or the trimmed password is empty, or the username as
    typed has fewer than three characters, submitting sends no request,
    leaves the session manager and storage untouched, asks for no navigation
    and only sets the error message of the first failed check. *)
Theorem login_form_blocks_invalid_input trim length net (p : page Login.component) :
  let f := Login.formData (view p) in
  trim (Login.username f) = "" \/ trim (Login.password f) = ""
  \/ length (Login.username f) < 3 ->
  Login.handleSubmit trim length net p
  = (Normal tt,
     {| view := {| Login.formData := f;
                   Login.error :=
                     VStr (if String.eqb (trim (Login.username f)) ""
                           then "Username is required"
                           else if String.eqb (trim (Login.password f)) ""
                                then "Password is required"
                                else "Username must be at least 3 characters");
                   Login.isSubmitting := Login.isSubmitting (view p) |};
        auth := auth p;
        routed := routed p |}).
Proof.
  cbn zeta. intros H. rewrite login_handleSubmit_run, login_validateForm_run. cbn zeta.
  destruct (String.eqb (trim _) "") eqn:Hu; [reflexivity|].
  destruct (String.eqb (trim (Login.password _)) "") eqn:Hp; [reflexivity|].
  destruct (length _ <? 3) eqn:Hl; [reflexivity|].
  exfalso. apply String.eqb_neq in Hu, Hp. apply Z.ltb_ge in Hl.
  destruct H as [H|[H|H]]; [contradiction|contradiction|lia].
Qed.

Lemma login_form_blocks_invalid_input_witness :
  let p := {| view := {| Login.formData := {| Login.username := "al";
                                              Login.password := "secret" |};
                         Login.error := VStr "";
                         Login.isSubmitting := false |};
              auth := (anonymous_session, fresh_world);
              routed := [] |} in
  let out := Login.handleSubmit (fun s => s) (fun s => Z.of_nat (String.length s))
               (always (Rejected timeout_error)) p in
  Login.error (view (snd out)) = VStr "Username must be at least 3 characters"
  /\ sent (snd (auth (snd out))) = [].
Proof.
  cbn zeta.
  rewrite (login_form_blocks_invalid_input (fun s => s) (fun s => Z.of_nat (String.length s))
             (always (Rejected timeout_error))
             {| view := {| Login.formData := {| Login.username := "al";
                                                Login.password := "secret" |};
                           Login.error := VStr "";
                           Login.isSubmitting := false |};
                auth := (anonymous_session, fresh_world);
                routed := [] |});
    [split; reflexivity|].
  right. right. cbn. lia.
Defined.





(** ** The registration page *)

Lemma register_validateForm_run trim length email_pattern (p : page Register.component) :
  Register.validateForm trim length email_pattern p =
  (Normal (Nat.eqb (size (Register.newErrors trim length email_pattern
                            (Register.formData (view p)))) 0),
   snd (Register.setErrors
          (Register.newErrors trim length email_pattern (Register.formData (view p))) p)).
Proof. reflexivity. Qed.

(** A submit that passes validation: whatever [register] returns and
    whatever the handler then writes, the page shown afterwards is a new
    instance in its initial state; the one thing the handler of the old
    instance leaves behind is the timer of an accepted registration. *)
Lemma register_handleSubmit_run trim length email_pattern net (p : page Register.component) :
  let f := Register.formData (view p) in
  let problems := Register.newErrors trim length email_pattern f in
  let by_register := AuthProvider.register net (Register.submitData trim f) (auth p) in
  let accepted :=
    match fst by_register with
    | Normal result => success result
    | Throw _ => false
    end in
  let tm := Register.timers (view p) in
  Register.handleSubmit trim length email_pattern net p =
  if Nat.eqb (size problems) 0 then
    (Normal tt,
     {| view := Register.initial (if accepted then tm ++ [(2000, "/login")] else tm);
        auth := snd by_register;
        routed := routed p |})
  else (Normal tt, snd (Register.setErrors problems p)).
Proof.
  cbn zeta. unfold Register.handleSubmit.
  unfold bind at 1. unfold get_view at 1. unfold bind at 1.
  rewrite register_validateForm_run.
  unfold Register.unmounted, detached, remounting,
    Register.setErrors, Register.setIsSubmitting, Register.setSuccessMessage,
    Register.setFormData, Register.setTimeout_navigate, set_view.
  cbn [snd]. destruct (Nat.eqb (size _) 0); [|reflexivity].
  cbn [negb]. unfold try_finally, try_catch, bind.
  cbn [view auth routed snd Register.formData Register.errors Register.successMessage
         Register.isSubmitting Register.timers].
  destruct (AuthProvider.register net _ (auth p)) as [[result|e] st'] eqn:Hreg; cbn [fst snd];
    [|reflexivity].
  destruct (success result); [reflexivity|].
  destruct (result_error result) as [| |b|n|str|items|fs]; cbn [includes]; try reflexivity.
  - unfold ret. destruct (contains "already exists" str); [reflexivity|].
    destruct (contains "admin key" str); reflexivity.
  - unfold ret. destruct (existsb _ items); [reflexivity|].
    destruct (existsb _ items); reflexivity.
Qed.

Lemma no_problems trim length email_pattern (f : Register.fields) :
  Register.newErrors trim length email_pattern f = ∅ <->
  trim (Register.username f) <> ""
  /\ 3 <= length (Register.username f)
  /\ word_pattern (Register.username f) = true
  /\ Register.password f <> ""
  /\ 6 <= length (Register.password f)
  /\ (Register.email f <> "" -> email_pattern (Register.email f) = true)
  /\ (Register.role f = "ADMIN" -> trim (Register.adminKey f) <> "").
Proof.
  unfold Register.newErrors. rewrite !truthy_str, !negb_involutive.
  destruct (String.eqb (trim (Register.username f)) "") eqn:A1;
    destruct (length (Register.username f) <? 3) eqn:A2;
    destruct (word_pattern (Register.username f)) eqn:A3;
    destruct (String.eqb (Register.password f) "") eqn:B1;
    destruct (length (Register.password f) <? 6) eqn:B2;
    destruct (String.eqb (Register.email f) "") eqn:C1;
    destruct (email_pattern (Register.email f)) eqn:C2;
    destruct (String.eqb (Register.role f) "ADMIN") eqn:D1;
    destruct (String.eqb (trim (Register.adminKey f)) "") eqn:D2;
    cbn [negb andb].
  all: repeat match goal with
         | H : String.eqb _ _ = true |- _ => apply String.eqb_eq in H
         | H : String.eqb _ _ = false |- _ => apply String.eqb_neq in H
         | H : (_ <? _) = true |- _ => apply Z.ltb_lt in H
         | H : (_ <? _) = false |- _ => apply Z.ltb_ge in H
         end.
  all: split;
    [ intros H; try (apply insert_non_empty in H; contradiction);
      repeat split; auto; try congruence; try lia
    | intros (P1 & P2 & P3 & P4 & P5 & P6 & P7); try reflexivity; exfalso;
      first [contradiction | lia | congruence | (specialize (P6 C1); congruence)
            | exact (P7 D1 D2) ] ].
Qed.

(** X23: the registration form is submitted exactly when every check
    passes: a non-blank username of at least three characters made of
    letters, digits and underscores, a password of at least six characters,
    an email that is empty or matches the pattern, and a non-blank admin key
    when the role is ADMIN.  Otherwise submitting sends nothing, leaves the
    session manager and storage untouched, and only shows the problems
    found. *)
Theorem register_form_gate trim length email_pattern net (p : page Register.component) :
  let f := Register.formData (view p) in
  let problems := Register.newErrors trim length email_pattern f in
  (problems = ∅ <->
     trim (Register.username f) <> ""
     /\ 3 <= length (Register.username f)
     /\ word_pattern (Register.username f) = true
     /\ Register.password f <> ""
     /\ 6 <= length (Register.password f)
     /\ (Register.email f <> "" -> email_pattern (Register.email f) = true)
     /\ (Register.role f = "ADMIN" -> trim (Register.adminKey f) <> ""))
  /\ (problems <> ∅ ->
        Register.handleSubmit trim length email_pattern net p
        = (Normal tt,
           {| view := {| Register.formData := f;
                         Register.errors := problems;
                         Register.successMessage := Register.successMessage (view p);
                         Register.isSubmitting := Register.isSubmitting (view p);
                         Register.timers := Register.timers (view p) |};
              auth := auth p;
              routed := routed p |})).
Proof.
  cbn zeta. split; [apply no_problems|].
  intros Hne. rewrite register_handleSubmit_run. cbn zeta.
  destruct (Nat.eqb (size _) 0) eqn:Hsize; [|reflexivity].
  apply Nat.eqb_eq, map_size_empty_iff in Hsize. contradiction.
Qed.

Lemma register_form_gate_witness :
  let p := {| view := {| Register.formData :=
                           {| Register.username := "bob"; Register.password := "pw";
                              Register.email := ""; Register.fullName := "";
                              Register.role := "USER"; Register.adminKey := "" |};
                         Register.errors := ∅;
                         Register.successMessage := "";
                         Register.isSubmitting := false;
                         Register.timers := [] |};
              auth := (anonymous_session, fresh_world);
              routed := [] |} in
  let out := Register.handleSubmit (fun s => s) (fun s => Z.of_nat (String.length s))
               (fun _ => true) (always (Rejected timeout_error)) p in
  Register.errors (view (snd out))
  = {[ "password" := VStr "Password must be at least 6 characters" ]}
  /\ sent (snd (auth (snd out))) = [].
Proof.
  cbn zeta.
  rewrite (proj2 (register_form_gate (fun s => s) (fun s => Z.of_nat (String.length s))
                    (fun _ => true) (always (Rejected timeout_error))
                    {| view := {| Register.formData :=
                                    {| Register.username := "bob"; Register.password := "pw";
                                       Register.email := ""; Register.fullName := "";
                                       Register.role := "USER"; Register.adminKey := "" |};
                                  Register.errors := ∅;
                                  Register.successMessage := "";
                                  Register.isSubmitting := false;
                                  Register.timers := [] |};
                       auth := (anonymous_session, fresh_world);
                       routed := [] |}));
    [split; reflexivity|].
  apply insert_non_empty.
Defined.

Lemma register_run_present net userData s w :
  ~ absent userData ->
  AuthProvider.register net userData (s, w) =
  match net (sent w) (register_request userData w) with
  | Resolved r =>
      (Normal {| success := true; data := None; error := None |},
       (stopped_loading s, after_send (register_request userData w) w))
  | Rejected e =>
      (Normal (failed "Registration failed" (AxiosError e)),
       (stopped_loading s,
        after_rejection e (after_send (register_request userData w) w)))
  end.
Proof.
  intros H. rewrite register_run.
  destruct userData; try reflexivity; exfalso; apply H; unfold absent; auto.
Qed.

Lemma submitData_present trim (f : Register.fields) : ~ absent (Register.submitData trim f).
Proof. unfold Register.submitData, absent. intros [H|H]; discriminate H. Qed.

Lemma after_rejection_sent e w : sent (after_rejection e w) = sent w.
Proof. unfold after_rejection. destruct (status_is_401 e); reflexivity. Qed.

Lemma register_sends_one net userData s w :
  ~ absent userData ->
  sent (snd (snd (AuthProvider.register net userData (s, w))))
  = sent w ++ [register_request userData w].
Proof.
  intros H. rewrite register_run_present by exact H.
  destruct (net (sent w) _) as [r|e]; cbn [snd]; rewrite ?after_rejection_sent; reflexivity.
Qed.

Lemma register_request_shape userData w :
  shape_of (register_request userData w) = ("post", "/api/auth/register", userData).
Proof. apply shape_of_configured. Qed.

(** X24: what a valid registration sends.  One [POST /api/auth/register]
    whose payload holds the trimmed username, the password as typed and the
    role; the trimmed email and full name only when they are not blank; and
    the trimmed admin key exactly when the role is ADMIN, so a key typed
    before switching the role away is not sent. *)
Theorem register_form_payload trim length email_pattern net (p : page Register.component) :
  let f := Register.formData (view p) in
  let payload := Register.submitData trim f in
  (prop payload "username" = VStr (trim (Register.username f))
   /\ prop payload "password" = VStr (Register.password f)
   /\ prop payload "role" = VStr (Register.role f)
   /\ prop payload "email"
      = (if String.eqb (trim (Register.email f)) "" then VUndefined
         else VStr (trim (Register.email f)))
   /\ prop payload "fullName"
      = (if String.eqb (trim (Register.fullName f)) "" then VUndefined
         else VStr (trim (Register.fullName f)))
   /\ prop payload "adminKey"
      = (if String.eqb (Register.role f) "ADMIN" then VStr (trim (Register.adminKey f))
         else VUndefined))
  /\ (Register.newErrors trim length email_pattern f = ∅ ->
        let out := Register.handleSubmit trim length email_pattern net p in
        sent (snd (auth (snd out)))
        = sent (snd (auth p)) ++ [register_request payload (snd (auth p))]
        /\ shape_of (register_request payload (snd (auth p)))
           = ("post", "/api/auth/register", payload)).
Proof.
  cbn zeta. split.
  - unfold Register.submitData. rewrite !truthy_str.
    destruct (String.eqb (trim (Register.email _)) "");
      destruct (String.eqb (trim (Register.fullName _)) "");
      destruct (String.eqb (Register.role _) "ADMIN");
      repeat split; reflexivity.
  - intros Hok. rewrite register_request_shape. split; [|reflexivity].
    rewrite register_handleSubmit_run. cbn zeta. rewrite Hok.
    change (Nat.eqb (size (∅ : gmap string value)) 0) with true. cbn iota. cbn [snd auth].
    destruct (auth p) as [s w]. apply register_sends_one, submitData_present.
Qed.

Lemma register_form_payload_witness :
  let f := {| Register.username := "carol"; Register.password := "s3cret!";
              Register.email := ""; Register.fullName := "Carol";
              Register.role := "USER"; Register.adminKey := "left-over" |} in
  let p := {| view := {| Register.formData := f; Register.errors := ∅;
                         Register.successMessage := ""; Register.isSubmitting := false;
                         Register.timers := [] |};
              auth := (anonymous_session, fresh_world);
              routed := [] |} in
  let out := Register.handleSubmit (fun s => s) (fun s => Z.of_nat (String.length s))
               (fun _ => true) (always (Rejected timeout_error)) p in
  map shape_of (sent (snd (auth (snd out))))
  = [("post", "/api/auth/register",
      VObj [("username", VStr "carol"); ("password", VStr "s3cret!");
            ("role", VStr "USER"); ("fullName", VStr "Carol")])].
Proof.
  cbn zeta.
  destruct (proj2 (register_form_payload (fun s => s) (fun s => Z.of_nat (String.length s))
                     (fun _ => true) (always (Rejected timeout_error))
                     {| view := {| Register.formData :=
                                     {| Register.username := "carol";
                                        Register.password := "s3cret!";
                                        Register.email := ""; Register.fullName := "Carol";
                                        Register.role := "USER";
                                        Register.adminKey := "left-over" |};
                                   Register.errors := ∅;
                                   Register.successMessage := "";
                                   Register.isSubmitting := false;
                                   Register.timers := [] |};
                        auth := (anonymous_session, fresh_world);
                        routed := [] |}) eq_refl) as [Hsent _].
  rewrite Hsent. reflexivity.
Defined.






(** ** The book search page *)

Lemma getAvailableBooks_run net w :
  APIService.getAvailableBooks net w =
  let config := configured w ("get", "/api/user/books/available", VUndefined) in
  match net (sent w) config with
  | Resolved r => (Normal (succeeded r), after_send config w)
  | Rejected e =>
      (Normal (failed_list "Failed to fetch books" (AxiosError e)),
       after_rejection e (after_send config w))
  end.
Proof. unfold APIService.getAvailableBooks, api.get. rewrite guarded_run. reflexivity. Qed.

Lemma searchBooks_run net query w :
  APIService.searchBooks net query w =
  let config :=
    configured w ("get", "/api/user/books/search?query=" +:+ encodeURIComponent query,
                  VUndefined) in
  match net (sent w) config with
  | Resolved r => (Normal (succeeded r), after_send config w)
  | Rejected e =>
      (Normal (failed_list "Search failed" (AxiosError e)),
       after_rejection e (after_send config w))
  end.
Proof. unfold APIService.searchBooks, api.get. rewrite guarded_run. reflexivity. Qed.

Lemma fetchAllBooks_run net (p : page BookSearch.component) :
  let c := view p in
  let w := snd (auth p) in
  let config := catalogue_request w in
  let shown (listed shown_error : value) (w' : world) :=
    {| view := {| BookSearch.searchTerm := BookSearch.searchTerm c;
                  BookSearch.books := listed;
                  BookSearch.loading := false;
                  BookSearch.hasSearched := BookSearch.hasSearched c;
                  BookSearch.error := shown_error;
                  BookSearch.selectedBook := BookSearch.selectedBook c;
                  BookSearch.bookingLoading := BookSearch.bookingLoading c;
                  BookSearch.successMessage := BookSearch.successMessage c |};
       auth := (fst (auth p), w');
       routed := routed p |} in
  BookSearch.fetchAllBooks net p =
  match net (sent w) config with
  | Resolved r => (Normal tt, shown (response_data r) (VStr "") (after_send config w))
  | Rejected e =>
      (Normal tt,
       shown (VArr []) (js_or (payload_of e) (VStr "Failed to fetch books"))
         (after_rejection e (after_send config w)))
  end.
Proof.
  cbn zeta. unfold BookSearch.fetchAllBooks.
  unfold BookSearch.setLoading, BookSearch.setError, BookSearch.setBooks, set_view,
    in_world, in_auth, AuthProvider.outside, try_finally, try_catch, bind.
  cbn [view auth routed fst snd]. rewrite getAvailableBooks_run. cbn zeta.
  unfold catalogue_request.
  destruct (net (sent _) _) as [r|e]; reflexivity.
Qed.

Lemma performSearch_run trim length net query (p : page BookSearch.component) :
  let c := view p in
  let w := snd (auth p) in
  let trimmedQuery := trim query in
  let config := search_request trimmedQuery w in
  let shown (listed shown_error : value) (w' : world) :=
    {| view := {| BookSearch.searchTerm := BookSearch.searchTerm c;
                  BookSearch.books := listed;
                  BookSearch.loading := false;
                  BookSearch.hasSearched := true;
                  BookSearch.error := shown_error;
                  BookSearch.selectedBook := BookSearch.selectedBook c;
                  BookSearch.bookingLoading := BookSearch.bookingLoading c;
                  BookSearch.successMessage := BookSearch.successMessage c |};
       auth := (fst (auth p), w');
       routed := routed p |} in
  BookSearch.performSearch trim length net query p =
  if String.eqb trimmedQuery "" then
    (Normal tt, snd (BookSearch.setHasSearched false (snd (BookSearch.fetchAllBooks net p))))
  else
    match net (sent w) config with
    | Resolved r =>
        match length_is_zero length (response_data r) tt with
        | (Normal true, _) =>
            (Normal tt,
             shown (response_data r)
               (VStr ("No books found for " +:+ quoted trimmedQuery
                      +:+ ". Try different keywords."))
               (after_send config w))
        | (Normal false, _) =>
            (Normal tt, shown (response_data r) (VStr "") (after_send config w))
        | (Throw _, _) =>
            (Normal tt,
             shown (VArr []) (VStr "Failed to search books. Please try again later.")
               (after_send config w))
        end
    | Rejected e =>
        (Normal tt,
         shown (VArr []) (js_or (payload_of e) (VStr "Search failed"))
           (after_rejection e (after_send config w)))
    end.
Proof.
  cbn zeta. unfold BookSearch.performSearch. rewrite truthy_str, negb_involutive.
  destruct (String.eqb (trim query) "").
  - unfold bind at 1. rewrite fetchAllBooks_run. cbn zeta.
    destruct (net (sent _) _); reflexivity.
  - unfold BookSearch.setLoading, BookSearch.setError, BookSearch.setBooks,
      BookSearch.setHasSearched, set_view,
      in_world, in_auth, AuthProvider.outside, try_finally, try_catch, bind.
    cbn [view auth routed fst snd]. rewrite searchBooks_run. cbn zeta.
    unfold search_request.
    destruct (net (sent _) _) as [r|e]; [|reflexivity].
    cbn [fst snd success succeeded data field].
    destruct (response_data r) as [| |b|n|str|items|fs]; cbn [length_is_zero]; try reflexivity.
    + unfold ret. destruct (length str =? 0); reflexivity.
    + unfold ret. destruct (Z.of_nat (List.length items) =? 0); reflexivity.
    + unfold ret. destruct (lookup_field "length" fs) as [| | |n| | |]; try reflexivity.
      destruct (n =? 0); reflexivity.
Qed.

(** X27: booking needs a logged-in session.  When [isLoggedIn()] is
    false, [bookBook] sends no request and changes nothing on the page or in
    the session; it only asks the router for [/login]. *)
Theorem booking_requires_login trim length net bookId (p : page BookSearch.component) :
  AuthProvider.isLoggedIn (fst (auth p)) = false ->
  BookSearch.bookBook trim length net bookId p
  = (Normal tt,
     {| view := view p; auth := auth p; routed := routed p ++ [("/login", false)] |}).
Proof.
  intros H. unfold BookSearch.bookBook. unfold bind at 1.
  unfold in_auth, AuthProvider.read. rewrite H. reflexivity.
Qed.

Lemma booking_requires_login_witness :
  let p := {| view := {| BookSearch.searchTerm := ""; BookSearch.books := VArr [];
                         BookSearch.loading := false; BookSearch.hasSearched := false;
                         BookSearch.error := VStr ""; BookSearch.selectedBook := VNull;
                         BookSearch.bookingLoading := false;
                         BookSearch.successMessage := "" |};
              auth := (anonymous_session, fresh_world);
              routed := [] |} in
  let out := BookSearch.bookBook (fun s => s) (fun s => Z.of_nat (String.length s))
               (always (Rejected timeout_error)) (VNum 7) p in
  routed (snd out) = [("/login", false)] /\ sent (snd (auth (snd out))) = [].
Proof.
  cbn zeta.
  rewrite (booking_requires_login (fun s => s) (fun s => Z.of_nat (String.length s))
             (always (Rejected timeout_error)) (VNum 7)
             {| view := {| BookSearch.searchTerm := ""; BookSearch.books := VArr [];
                           BookSearch.loading := false; BookSearch.hasSearched := false;
                           BookSearch.error := VStr ""; BookSearch.selectedBook := VNull;
                           BookSearch.bookingLoading := false;
                           BookSearch.successMessage := "" |};
                auth := (anonymous_session, fresh_world);
                routed := [] |} eq_refl).
  split; reflexivity.
Defined.

(** X28: one search, one request.  A query that is blank after trimming
    reloads the available books ([GET /api/user/books/available]) and clears
    [hasSearched]; any other query sends [GET /api/user/books/search] with
    the encoded trimmed query and sets [hasSearched].  Either way exactly one
    request is sent, [loading] ends cleared, and the session cells and the
    router are left alone. *)
Theorem search_sends_one_request trim length net query (p : page BookSearch.component) :
  let out := BookSearch.performSearch trim length net query p in
  let blank := String.eqb (trim query) "" in
  fst out = Normal tt
  /\ (exists config,
        sent (snd (auth (snd out))) = sent (snd (auth p)) ++ [config]
        /\ shape_of config
           = if blank then ("get", "/api/user/books/available", VUndefined)
             else ("get",
                   "/api/user/books/search?query=" +:+ encodeURIComponent (trim query),
                   VUndefined))
  /\ BookSearch.hasSearched (view (snd out)) = negb blank
  /\ BookSearch.loading (view (snd out)) = false
  /\ fst (auth (snd out)) = fst (auth p)
  /\ routed (snd out) = routed p.
Proof.
  cbn zeta. rewrite performSearch_run. cbn zeta.
  destruct (String.eqb (trim query) "").
  - rewrite fetchAllBooks_run. cbn zeta.
    destruct (net (sent _) _) as [r|e]; cbn [fst snd view auth routed BookSearch.setHasSearched
                                               set_view BookSearch.hasSearched
                                               BookSearch.loading].
    all: repeat match goal with |- _ /\ _ => split end; try reflexivity.
    all: eexists; rewrite ?after_rejection_sent; split;
      [reflexivity|apply shape_of_configured].
  - destruct (net (sent _) _) as [r|e].
    + destruct (length_is_zero length (response_data r) tt) as [[[]|] []];
        cbn [fst snd view auth routed BookSearch.hasSearched BookSearch.loading].
      all: repeat match goal with |- _ /\ _ => split end; try reflexivity.
      all: eexists; split; [reflexivity|apply shape_of_configured].
    + cbn [fst snd view auth routed BookSearch.hasSearched BookSearch.loading].
      repeat match goal with |- _ /\ _ => split end; try reflexivity.
      eexists; rewrite ?after_rejection_sent; split; [reflexivity|apply shape_of_configured].
Qed.

(** X29: what a search that finds nothing shows.  For a query that is
    not blank: a refused or failed request leaves an empty list and the
    gateway's error, which is never empty, and an empty array from the
    backend leaves an empty list and the [No books found] message for the
    trimmed query; [hasSearched] is set and [loading] ends cleared. *)
Theorem search_outcomes trim length net query (p : page BookSearch.component) :
  let config := search_request (trim query) (snd (auth p)) in
  let out := BookSearch.performSearch trim length net query p in
  let listed := BookSearch.books (view (snd out)) in
  let shown := BookSearch.error (view (snd out)) in
  trim query <> "" ->
  (forall e, net (sent (snd (auth p))) config = Rejected e ->
     listed = VArr []
     /\ shown = js_or (payload_of e) (VStr "Search failed")
     /\ truthy shown = true
     /\ BookSearch.hasSearched (view (snd out)) = true
     /\ BookSearch.loading (view (snd out)) = false)
  /\ (forall r, net (sent (snd (auth p))) config = Resolved r ->
        response_data r = VArr [] ->
        listed = VArr []
        /\ shown = VStr ("No books found for " +:+ quoted (trim query)
                         +:+ ". Try different keywords.")
        /\ BookSearch.hasSearched (view (snd out)) = true
        /\ BookSearch.loading (view (snd out)) = false).
Proof.
  cbn zeta. intros Hq%String.eqb_neq. rewrite performSearch_run. cbn zeta. rewrite Hq.
  split.
  - intros e ->. cbn [snd view BookSearch.books BookSearch.error BookSearch.hasSearched
                        BookSearch.loading].
    repeat split. apply js_or_truthy. reflexivity.
  - intros r -> ->. repeat split.
Qed.

Lemma search_outcomes_witness :
  let p := {| view := {| BookSearch.searchTerm := "dune"; BookSearch.books := VArr [];
                         BookSearch.loading := false; BookSearch.hasSearched := false;
                         BookSearch.error := VStr ""; BookSearch.selectedBook := VNull;
                         BookSearch.bookingLoading := false;
                         BookSearch.successMessage := "" |};
              auth := (anonymous_session, fresh_world);
              routed := [] |} in
  let out := BookSearch.performSearch (fun s => s) (fun s => Z.of_nat (String.length s))
               (always (Resolved {| response_status := 200; response_data := VArr [] |}))
               "dune" p in
  BookSearch.books (view (snd out)) = VArr []
  /\ BookSearch.error (view (snd out))
     = VStr ("No books found for " +:+ quoted "dune" +:+ ". Try different keywords.")
  /\ BookSearch.hasSearched (view (snd out)) = true
  /\ BookSearch.loading (view (snd out)) = false.
Proof.
  cbn zeta.
  apply (proj2 (search_outcomes (fun s => s) (fun s => Z.of_nat (String.length s))
                  (always (Resolved {| response_status := 200;
                                       response_data := VArr [] |}))
                  "dune"
                  {| view := {| BookSearch.searchTerm := "dune";
                                BookSearch.books := VArr [];
                                BookSearch.loading := false;
                                BookSearch.hasSearched := false;
                                BookSearch.error := VStr "";
                                BookSearch.selectedBook := VNull;
                                BookSearch.bookingLoading := false;
                                BookSearch.successMessage := "" |};
                     auth := (anonymous_session, fresh_world);
                     routed := [] |}
                  ltac:(discriminate))
           {| response_status := 200; response_data := VArr [] |} eq_refl eq_refl).
Defined.

(** X30: what loading the catalogue shows when there is nothing to list.
    A refused or failed request leaves an empty list and the gateway's
    error, which is never empty; an empty array from the backend leaves an
    empty list and no error.  The handler never throws and [loading] ends
    cleared. *)
Theorem catalogue_outcomes net (p : page BookSearch.component) :
  let config := catalogue_request (snd (auth p)) in
  let out := BookSearch.fetchAllBooks net p in
  fst out = Normal tt
  /\ BookSearch.loading (view (snd out)) = false
  /\ (forall e, net (sent (snd (auth p))) config = Rejected e ->
        BookSearch.books (view (snd out)) = VArr []
        /\ BookSearch.error (view (snd out)) = js_or (payload_of e) (VStr "Failed to fetch books")
        /\ truthy (BookSearch.error (view (snd out))) = true)
  /\ (forall r, net (sent (snd (auth p))) config = Resolved r ->
        response_data r = VArr [] ->
        BookSearch.books (view (snd out)) = VArr []
        /\ BookSearch.error (view (snd out)) = VStr "").
Proof.
  cbn zeta. rewrite fetchAllBooks_run. cbn zeta.
  destruct (net (sent _) _) as [r|e]; cbn [fst snd view BookSearch.loading BookSearch.books
                                             BookSearch.error].
  - split; [reflexivity|]. split; [reflexivity|]. split; [intros e [=]|].
    intros r' [= <-] ->. split; reflexivity.
  - split; [reflexivity|]. split; [reflexivity|]. split; [|intros r [=]].
    intros e' [= <-]. repeat split. apply js_or_truthy. reflexivity.
Qed.

Lemma catalogue_outcomes_witness :
  let p := {| view := {| BookSearch.searchTerm := ""; BookSearch.books := VArr [VNum 1];
                         BookSearch.loading := false; BookSearch.hasSearched := false;
                         BookSearch.error := VStr ""; BookSearch.selectedBook := VNull;
                         BookSearch.bookingLoading := false;
                         BookSearch.successMessage := "" |};
              auth := (anonymous_session, fresh_world);
              routed := [] |} in
  let out := BookSearch.fetchAllBooks (always (Rejected timeout_error)) p in
  BookSearch.books (view (snd out)) = VArr []
  /\ BookSearch.error (view (snd out)) = VStr "Failed to fetch books"
  /\ truthy (BookSearch.error (view (snd out))) = true.
Proof.
  cbn zeta.
  apply (proj1 (proj2 (proj2 (catalogue_outcomes
                  (always (Rejected timeout_error))
                  {| view := {| BookSearch.searchTerm := ""; BookSearch.books := VArr [VNum 1];
                                BookSearch.loading := false; BookSearch.hasSearched := false;
                                BookSearch.error := VStr ""; BookSearch.selectedBook := VNull;
                                BookSearch.bookingLoading := false;
                                BookSearch.successMessage := "" |};
                     auth := (anonymous_session, fresh_world);
                     routed := [] |})))
           timeout_error eq_refl).
Defined.

